(** * aws-custom-route-controller: the startup program [main.go]

    A shallow embedding of [main] and [checkRequiredFlag].  The program is a
    straight-line sequence of calls into collaborators (pflag, the logger,
    controller-runtime, the updater and util packages) in which every
    failure ends the process through [os.Exit(1)].  It is modelled in a
    small monad that threads the process state (the storage behind the
    flag pointers and the chronological record of calls) and carries the
    exit status. *)

From Stdlib Require Import String Ascii List ZArith Bool Lia DecimalString.
From Stdlib Require Import DecimalPos DecimalZ.
From ExtLib Require Import Structures.Monad.
Import ListNotations.
Import MonadNotation.

Local Open Scope string_scope.
Local Open Scope list_scope.
Local Open Scope monad_scope.

(** ** Go values *)

(** A Go call returning [(T, error)]. *)
Inductive result (E A : Type) : Type :=
| Ok (a : A)
| Err (e : E).
Arguments Ok {E A} a.
Arguments Err {E A} e.

(** [time.Duration] is a count of nanoseconds. *)
Definition Duration := Z.
Definition Second : Duration := 1000000000%Z.
Definition Minute : Duration := (60 * Second)%Z.
Definition Hour : Duration := (60 * Minute)%Z.

(** A Go [int] or [int64] (both of 64 bits here): an integer with the
    proof that it fits. *)
Definition fitsInt64 (z : Z) : bool :=
  ((- 2 ^ 63 <=? z) && (z <? 2 ^ 63))%Z.

Record Int64 : Type := {
  intValue : Z;
  intFits : fitsInt64 intValue = true
}.

(** [fmt.Sprintf("%d", n)] for a Go [int]. *)
Definition itoa (n : Z) : string := NilZero.string_of_int (Z.to_int n).

(** [strings.Split(s, sep)] for a separator of one byte: the pieces of [s]
    between the occurrences of [sep]; a string without [sep] (the empty
    string too) is returned as its only piece. *)
Fixpoint Split (s : string) (sep : ascii) : list string :=
  match s with
  | EmptyString => [""]
  | String c rest =>
      if Ascii.eqb c sep then "" :: Split rest sep
      else match Split rest sep with
           | [] => [String c ""]
           | piece :: pieces => String c piece :: pieces
           end
  end.

(** [strings.Count(s, sep)] for a separator of one byte. *)
Fixpoint Count (s : string) (sep : ascii) : nat :=
  match s with
  | EmptyString => 0
  | String c rest => (if Ascii.eqb c sep then 1 else 0) + Count rest sep
  end.

(** [strings.Contains] for one byte. *)
Fixpoint Contains (s : string) (sep : ascii) : bool :=
  match s with
  | EmptyString => false
  | String c rest => Ascii.eqb c sep || Contains rest sep
  end.

Definition comma : ascii := ","%char.

(** ** Constants of [main.go] *)

Definition componentName : string := "aws-custom-route-controller".
Definition leaderElectionId : string :=
  "aws-custom-route-controller-leader-election".

(** [resourcelock.LeasesResourceLock] *)
Definition LeasesResourceLock : string := "leases".

(** ** Loggers

    A [logr.Logger] is identified by the names it was given with
    [WithName]; [logf.Log] is the root. *)
Record Logger : Type := { loggerNames : list string }.
Definition Log : Logger := {| loggerNames := [] |}.
Definition WithName (l : Logger) (name : string) : Logger :=
  {| loggerNames := loggerNames l ++ [name] |}.

(** The value built by [logger.MustNewZapLogger(level, format)], kept as
    the two arguments it was built from ([main] only ever builds it from
    the defaults of the two flags, see [prelude]). *)
Record ZapLogger : Type := { zapLevel : string; zapFormat : string }.
Definition MustNewZapLogger (level format : string) : ZapLogger :=
  {| zapLevel := level; zapFormat := format |}.

(** ** [manager.Options] as [main] fills it *)

Record ServerOptions : Type := { BindAddress : string }.

Record Options : Type := {
  LeaderElection : bool;
  LeaderElectionResourceLock : string;
  LeaderElectionID : string;
  LeaderElectionNamespace : string;
  Metrics : ServerOptions;
  HealthProbeBindAddress : string
}.

(** Method values: [reconciler.ReadyChecker] and
    [reconciler.HealthzChecker] of a reconciler, [customRoutes.Update] of
    an updater. *)
Inductive Checker (R : Type) : Type :=
| ReadyChecker (r : R)
| HealthzChecker (r : R).
Arguments ReadyChecker {R} r.
Arguments HealthzChecker {R} r.

Inductive SyncFunc (C : Type) : Type :=
| Update (c : C).
Arguments Update {C} c.

(** How a computation ends: it returns, or the process exits. *)
Inductive Outcome (A : Type) : Type :=
| Returned (a : A)
| Exited (code : Z).
Arguments Returned {A} a.
Arguments Exited {A} code.

(** ** The collaborators

    Everything [main] calls outside [main.go]: the types are opaque, the
    calls are given by their results.  Each call is made at most once in
    an execution, so a function of the arguments describes any behaviour
    of the collaborator in that execution. *)
Class Collaborators : Type := {
  error : Type;
  RestConfig : Type;
  Manager : Type;
  Client : Type;
  ElectedChan : Type;
  EventRecorder : Type;
  NodeReconciler : Type;
  Credentials : Type;
  EC2Routes : Type;
  IPNet : Type;
  CustomRoutes : Type;
  Context : Type;

  (** constants of the repository's packages [updater] and [logger] *)
  InClusterConfig : string;
  InfoLevel : string;
  FormatJSON : string;

  (** [clientcmd.BuildConfigFromFlags(masterUrl, kubeconfigPath)] *)
  BuildConfigFromFlags : string -> string -> result error RestConfig;
  (** [manager.New(config, options)] *)
  manager_New : RestConfig -> Options -> result error Manager;
  GetClient : Manager -> Client;
  Elected : Manager -> ElectedChan;
  GetEventRecorderFor : Manager -> string -> EventRecorder;
  (** [controller.NewNodeReconciler(client, log, elected, recorder)] *)
  NewNodeReconciler :
    Client -> Logger -> ElectedChan -> EventRecorder -> NodeReconciler;
  (** [builder.ControllerManagedBy(mgr).For(&corev1.Node{}).Complete(r)] *)
  Complete : Manager -> NodeReconciler -> option error;
  (** [mgr.AddReadyzCheck(name, check)], [mgr.AddHealthzCheck(name, check)] *)
  AddReadyzCheck : Manager -> string -> Checker NodeReconciler -> option error;
  AddHealthzCheck : Manager -> string -> Checker NodeReconciler -> option error;
  (** [updater.LoadCredentials(kubeconfig, namespace, secretName)] *)
  LoadCredentials : string -> string -> string -> result error Credentials;
  (** [updater.NewAWSEC2Routes(credentials, region)] *)
  NewAWSEC2Routes : Credentials -> string -> result error EC2Routes;
  (** [util.GetIPv4CIDR(cidrs)] *)
  GetIPv4CIDR : list string -> result error IPNet;
  (** [updater.NewCustomRoutes(log, ec2Routes, clusterName, podCIDR)] *)
  NewCustomRoutes :
    Logger -> EC2Routes -> string -> IPNet -> result error CustomRoutes;
  (** [signals.SetupSignalHandler()] *)
  SetupSignalHandler : Context;
  (** [mgr.Start(ctx)]: the error it returns when it returns *)
  Start : Manager -> Context -> option error
}.

Section Program.

Context {collab : Collaborators}.

(** ** Flags

    The package-level variables of [main.go] are pointers into the
    storage of the flag set: [pflag.String(name, default, usage)]
    allocates the cell holding the default, [pflag.Parse] overwrites the
    cells of the flags given on the command line. *)
Record Flags : Type := {
  clusterName : string;
  controlKubeconfig : string;
  healthProbePort : Z;
  maxDelay : Duration;
  metricsPort : Z;
  namespace : string;
  podNetworkCidr : string;
  region : string;
  secretName : string;
  syncPeriod : Duration;
  targetKubeconfig : string;
  tickPeriod : Duration;
  leaderElection : bool;
  leaderElectionNamespace : string;
  logLevel : string;
  logFormat : string
}.

Definition defaults : Flags := {|
  clusterName := "";
  controlKubeconfig := InClusterConfig;
  healthProbePort := 8081;
  maxDelay := (5 * Minute)%Z;
  metricsPort := 8080;
  namespace := "";
  podNetworkCidr := "";
  region := "";
  secretName := "cloudprovider";
  syncPeriod := (1 * Hour)%Z;
  targetKubeconfig := "";
  tickPeriod := (5 * Second)%Z;
  leaderElection := false;
  leaderElectionNamespace := "kube-system";
  logLevel := InfoLevel;
  logFormat := FormatJSON
|}.

(** One flag given on the command line, with its value as pflag decodes
    it ([--leader-election] alone is [leader_election true]; a port is a
    Go [int] and a duration a count of nanoseconds in an [int64]). *)
Inductive Setting : Type :=
| cluster_name (v : string)
| control_kubeconfig (v : string)
| health_probe_port (v : Int64)
| max_delay_on_failure (v : Int64)
| metrics_port (v : Int64)
| namespace_ (v : string)
| pod_network_cidr (v : string)
| region_ (v : string)
| secret_name (v : string)
| sync_period (v : Int64)
| target_kubeconfig (v : string)
| tick_period (v : Int64)
| leader_election (v : bool)
| leader_election_namespace (v : string)
| log_level (v : string)
| log_format (v : string).

(** The name of the flag on the command line. *)
Definition flagName (s : Setting) : string :=
  match s with
  | cluster_name _ => "cluster-name"
  | control_kubeconfig _ => "control-kubeconfig"
  | health_probe_port _ => "health-probe-port"
  | max_delay_on_failure _ => "max-delay-on-failure"
  | metrics_port _ => "metrics-port"
  | namespace_ _ => "namespace"
  | pod_network_cidr _ => "pod-network-cidr"
  | region_ _ => "region"
  | secret_name _ => "secret-name"
  | sync_period _ => "sync-period"
  | target_kubeconfig _ => "target-kubeconfig"
  | tick_period _ => "tick-period"
  | leader_election _ => "leader-election"
  | leader_election_namespace _ => "leader-election-namespace"
  | log_level _ => "log-level"
  | log_format _ => "log-format"
  end.

(** [flag.Value.Set]: the cell of the flag takes the value. *)
Definition setFlag (f : Flags) (s : Setting) : Flags :=
  match s with
  | cluster_name v =>
      {| clusterName := v; controlKubeconfig := controlKubeconfig f;
         healthProbePort := healthProbePort f; maxDelay := maxDelay f;
         metricsPort := metricsPort f; namespace := namespace f;
         podNetworkCidr := podNetworkCidr f; region := region f;
         secretName := secretName f; syncPeriod := syncPeriod f;
         targetKubeconfig := targetKubeconfig f; tickPeriod := tickPeriod f;
         leaderElection := leaderElection f;
         leaderElectionNamespace := leaderElectionNamespace f;
         logLevel := logLevel f; logFormat := logFormat f |}
  | control_kubeconfig v =>
      {| clusterName := clusterName f; controlKubeconfig := v;
         healthProbePort := healthProbePort f; maxDelay := maxDelay f;
         metricsPort := metricsPort f; namespace := namespace f;
         podNetworkCidr := podNetworkCidr f; region := region f;
         secretName := secretName f; syncPeriod := syncPeriod f;
         targetKubeconfig := targetKubeconfig f; tickPeriod := tickPeriod f;
         leaderElection := leaderElection f;
         leaderElectionNamespace := leaderElectionNamespace f;
         logLevel := logLevel f; logFormat := logFormat f |}
  | health_probe_port v =>
      {| clusterName := clusterName f; controlKubeconfig := controlKubeconfig f;
         healthProbePort := intValue v; maxDelay := maxDelay f;
         metricsPort := metricsPort f; namespace := namespace f;
         podNetworkCidr := podNetworkCidr f; region := region f;
         secretName := secretName f; syncPeriod := syncPeriod f;
         targetKubeconfig := targetKubeconfig f; tickPeriod := tickPeriod f;
         leaderElection := leaderElection f;
         leaderElectionNamespace := leaderElectionNamespace f;
         logLevel := logLevel f; logFormat := logFormat f |}
  | max_delay_on_failure v =>
      {| clusterName := clusterName f; controlKubeconfig := controlKubeconfig f;
         healthProbePort := healthProbePort f; maxDelay := intValue v;
         metricsPort := metricsPort f; namespace := namespace f;
         podNetworkCidr := podNetworkCidr f; region := region f;
         secretName := secretName f; syncPeriod := syncPeriod f;
         targetKubeconfig := targetKubeconfig f; tickPeriod := tickPeriod f;
         leaderElection := leaderElection f;
         leaderElectionNamespace := leaderElectionNamespace f;
         logLevel := logLevel f; logFormat := logFormat f |}
  | metrics_port v =>
      {| clusterName := clusterName f; controlKubeconfig := controlKubeconfig f;
         healthProbePort := healthProbePort f; maxDelay := maxDelay f;
         metricsPort := intValue v; namespace := namespace f;
         podNetworkCidr := podNetworkCidr f; region := region f;
         secretName := secretName f; syncPeriod := syncPeriod f;
         targetKubeconfig := targetKubeconfig f; tickPeriod := tickPeriod f;
         leaderElection := leaderElection f;
         leaderElectionNamespace := leaderElectionNamespace f;
         logLevel := logLevel f; logFormat := logFormat f |}
  | namespace_ v =>
      {| clusterName := clusterName f; controlKubeconfig := controlKubeconfig f;
         healthProbePort := healthProbePort f; maxDelay := maxDelay f;
         metricsPort := metricsPort f; namespace := v;
         podNetworkCidr := podNetworkCidr f; region := region f;
         secretName := secretName f; syncPeriod := syncPeriod f;
         targetKubeconfig := targetKubeconfig f; tickPeriod := tickPeriod f;
         leaderElection := leaderElection f;
         leaderElectionNamespace := leaderElectionNamespace f;
         logLevel := logLevel f; logFormat := logFormat f |}
  | pod_network_cidr v =>
      {| clusterName := clusterName f; controlKubeconfig := controlKubeconfig f;
         healthProbePort := healthProbePort f; maxDelay := maxDelay f;
         metricsPort := metricsPort f; namespace := namespace f;
         podNetworkCidr := v; region := region f;
         secretName := secretName f; syncPeriod := syncPeriod f;
         targetKubeconfig := targetKubeconfig f; tickPeriod := tickPeriod f;
         leaderElection := leaderElection f;
         leaderElectionNamespace := leaderElectionNamespace f;
         logLevel := logLevel f; logFormat := logFormat f |}
  | region_ v =>
      {| clusterName := clusterName f; controlKubeconfig := controlKubeconfig f;
         healthProbePort := healthProbePort f; maxDelay := maxDelay f;
         metricsPort := metricsPort f; namespace := namespace f;
         podNetworkCidr := podNetworkCidr f; region := v;
         secretName := secretName f; syncPeriod := syncPeriod f;
         targetKubeconfig := targetKubeconfig f; tickPeriod := tickPeriod f;
         leaderElection := leaderElection f;
         leaderElectionNamespace := leaderElectionNamespace f;
         logLevel := logLevel f; logFormat := logFormat f |}
  | secret_name v =>
      {| clusterName := clusterName f; controlKubeconfig := controlKubeconfig f;
         healthProbePort := healthProbePort f; maxDelay := maxDelay f;
         metricsPort := metricsPort f; namespace := namespace f;
         podNetworkCidr := podNetworkCidr f; region := region f;
         secretName := v; syncPeriod := syncPeriod f;
         targetKubeconfig := targetKubeconfig f; tickPeriod := tickPeriod f;
         leaderElection := leaderElection f;
         leaderElectionNamespace := leaderElectionNamespace f;
         logLevel := logLevel f; logFormat := logFormat f |}
  | sync_period v =>
      {| clusterName := clusterName f; controlKubeconfig := controlKubeconfig f;
         healthProbePort := healthProbePort f; maxDelay := maxDelay f;
         metricsPort := metricsPort f; namespace := namespace f;
         podNetworkCidr := podNetworkCidr f; region := region f;
         secretName := secretName f; syncPeriod := intValue v;
         targetKubeconfig := targetKubeconfig f; tickPeriod := tickPeriod f;
         leaderElection := leaderElection f;
         leaderElectionNamespace := leaderElectionNamespace f;
         logLevel := logLevel f; logFormat := logFormat f |}
  | target_kubeconfig v =>
      {| clusterName := clusterName f; controlKubeconfig := controlKubeconfig f;
         healthProbePort := healthProbePort f; maxDelay := maxDelay f;
         metricsPort := metricsPort f; namespace := namespace f;
         podNetworkCidr := podNetworkCidr f; region := region f;
         secretName := secretName f; syncPeriod := syncPeriod f;
         targetKubeconfig := v; tickPeriod := tickPeriod f;
         leaderElection := leaderElection f;
         leaderElectionNamespace := leaderElectionNamespace f;
         logLevel := logLevel f; logFormat := logFormat f |}
  | tick_period v =>
      {| clusterName := clusterName f; controlKubeconfig := controlKubeconfig f;
         healthProbePort := healthProbePort f; maxDelay := maxDelay f;
         metricsPort := metricsPort f; namespace := namespace f;
         podNetworkCidr := podNetworkCidr f; region := region f;
         secretName := secretName f; syncPeriod := syncPeriod f;
         targetKubeconfig := targetKubeconfig f; tickPeriod := intValue v;
         leaderElection := leaderElection f;
         leaderElectionNamespace := leaderElectionNamespace f;
         logLevel := logLevel f; logFormat := logFormat f |}
  | leader_election v =>
      {| clusterName := clusterName f; controlKubeconfig := controlKubeconfig f;
         healthProbePort := healthProbePort f; maxDelay := maxDelay f;
         metricsPort := metricsPort f; namespace := namespace f;
         podNetworkCidr := podNetworkCidr f; region := region f;
         secretName := secretName f; syncPeriod := syncPeriod f;
         targetKubeconfig := targetKubeconfig f; tickPeriod := tickPeriod f;
         leaderElection := v;
         leaderElectionNamespace := leaderElectionNamespace f;
         logLevel := logLevel f; logFormat := logFormat f |}
  | leader_election_namespace v =>
      {| clusterName := clusterName f; controlKubeconfig := controlKubeconfig f;
         healthProbePort := healthProbePort f; maxDelay := maxDelay f;
         metricsPort := metricsPort f; namespace := namespace f;
         podNetworkCidr := podNetworkCidr f; region := region f;
         secretName := secretName f; syncPeriod := syncPeriod f;
         targetKubeconfig := targetKubeconfig f; tickPeriod := tickPeriod f;
         leaderElection := leaderElection f;
         leaderElectionNamespace := v;
         logLevel := logLevel f; logFormat := logFormat f |}
  | log_level v =>
      {| clusterName := clusterName f; controlKubeconfig := controlKubeconfig f;
         healthProbePort := healthProbePort f; maxDelay := maxDelay f;
         metricsPort := metricsPort f; namespace := namespace f;
         podNetworkCidr := podNetworkCidr f; region := region f;
         secretName := secretName f; syncPeriod := syncPeriod f;
         targetKubeconfig := targetKubeconfig f; tickPeriod := tickPeriod f;
         leaderElection := leaderElection f;
         leaderElectionNamespace := leaderElectionNamespace f;
         logLevel := v; logFormat := logFormat f |}
  | log_format v =>
      {| clusterName := clusterName f; controlKubeconfig := controlKubeconfig f;
         healthProbePort := healthProbePort f; maxDelay := maxDelay f;
         metricsPort := metricsPort f; namespace := namespace f;
         podNetworkCidr := podNetworkCidr f; region := region f;
         secretName := secretName f; syncPeriod := syncPeriod f;
         targetKubeconfig := targetKubeconfig f; tickPeriod := tickPeriod f;
         leaderElection := leaderElection f;
         leaderElectionNamespace := leaderElectionNamespace f;
         logLevel := logLevel f; logFormat := v |}
  end.

(** The cells after [pflag.Parse]: the settings are applied from left to
    right, so a flag given twice keeps its last value. *)
Definition parseFlags (store : Flags) (args : list Setting) : Flags :=
  fold_left setFlag args store.

(** One argument of the command line as [pflag.Parse] reads it: a
    declared flag with a value of its type, an argument pflag refuses
    (an unknown flag, a value that is not of the flag's type or does not
    fit it, a flag without its value), or the request for help
    ([--help], [-h]).  Arguments that are not flags are set aside by
    pflag and never read by [main]; they are left out. *)
Inductive Argument : Type :=
| Flag (s : Setting)
| Refused (message : string)
| HelpRequest.

(** How [pflag.Parse] ends on a command line. *)
Inductive ParseEnd : Type :=
| Parsed
| Failed (message : string)
| Helped.

(** The arguments are read from left to right, each flag writing its
    cell, up to the first argument that is refused or asks for help. *)
Fixpoint parseArguments (store : Flags) (cmd : list Argument)
  : Flags * ParseEnd :=
  match cmd with
  | [] => (store, Parsed)
  | Flag s :: rest => parseArguments (setFlag store s) rest
  | Refused message :: _ => (store, Failed message)
  | HelpRequest :: _ => (store, Helped)
  end.

(** The settings of a command line that pflag reads to its end. *)
Fixpoint accepted (cmd : list Argument) : option (list Setting) :=
  match cmd with
  | [] => Some []
  | Flag s :: rest => option_map (cons s) (accepted rest)
  | _ => None
  end.

(** ** The record of an execution *)

Inductive Event : Type :=
| EvSetLogger (l : ZapLogger)
| EvKlogSetLogger (l : Logger)
| EvInfo (l : Logger) (msg : string) (keysAndValues : list (string * string))
| EvError (l : Logger) (err : error) (msg : string)
          (keysAndValues : list (string * string))
| EvParse (cmd : list Argument)
| EvParseError (message : string)
| EvUsage
| EvBuildConfigFromFlags (masterUrl kubeconfigPath : string)
| EvManagerNew (config : RestConfig) (options : Options)
| EvNewNodeReconciler (m : Manager) (l : Logger) (recorderName : string)
| EvComplete (m : Manager) (r : NodeReconciler)
| EvAddReadyzCheck (m : Manager) (name : string)
                   (check : Checker NodeReconciler)
| EvAddHealthzCheck (m : Manager) (name : string)
                    (check : Checker NodeReconciler)
| EvLoadCredentials (kubeconfig ns secret : string)
| EvNewAWSEC2Routes (c : Credentials) (region : string)
| EvGetIPv4CIDR (cidrs : list string)
| EvNewCustomRoutes (l : Logger) (r : EC2Routes) (cluster : string)
                    (podCIDR : IPNet)
| EvSetupSignalHandler
| EvStartUpdater (r : NodeReconciler) (ctx : Context)
                 (sync : SyncFunc CustomRoutes)
                 (tick syncPeriod maxDelay : Duration)
| EvStart (m : Manager) (ctx : Context).

Record Process : Type := {
  flagStore : Flags;
  events : list Event
}.

Definition Proc (A : Type) : Type := Process -> Process * Outcome A.

#[export] Instance Monad_Proc : Monad Proc := {
  ret := fun _ a p => (p, Returned a);
  bind := fun _ _ c k p =>
    match c p with
    | (p', Returned a) => k a p'
    | (p', Exited code) => (p', Exited code)
    end
}.

(** A call is recorded when it is made. *)
Definition record (e : Event) : Proc unit :=
  fun p => ({| flagStore := flagStore p; events := events p ++ [e] |},
            Returned tt).

(** [*flag]: the content of a flag's cell now. *)
Definition deref {A : Type} (cell : Flags -> A) : Proc A :=
  fun p => (p, Returned (cell (flagStore p))).

(** [os.Exit(code)] *)
Definition os_Exit {A : Type} (code : Z) : Proc A :=
  fun p => (p, Exited code).

(** [pflag.Parse()] on the command line.  The flag set of the command
    line is made with [ExitOnError]: on an argument it refuses, pflag
    prints the error and the usage message and ends the process with
    status 2; on a request for help it prints the usage message and ends
    the process with status 0. *)
Definition pflag_Parse (cmd : list Argument) : Proc unit :=
  fun p =>
    match parseArguments (flagStore p) cmd with
    | (store, Parsed) =>
        ({| flagStore := store; events := events p ++ [EvParse cmd] |},
         Returned tt)
    | (store, Failed message) =>
        ({| flagStore := store;
            events := events p ++
                      [EvParse cmd; EvParseError message; EvUsage] |},
         Exited 2%Z)
    | (store, Helped) =>
        ({| flagStore := store;
            events := events p ++ [EvParse cmd; EvUsage] |},
         Exited 0%Z)
    end.

Definition log_Info (l : Logger) (msg : string) (kvs : list (string * string))
  : Proc unit :=
  record (EvInfo l msg kvs).

Definition log_Error (l : Logger) (err : error) (msg : string)
                 (kvs : list (string * string)) : Proc unit :=
  record (EvError l err msg kvs).

(** A call returning [(T, error)], recorded. *)
Definition call {A : Type} (e : Event) (r : A) : Proc A :=
  record e ;; ret r.

(** ** [checkRequiredFlag] *)

Definition requiredMessage (name : string) : string :=
  "'--" ++ name ++ "' is required".

Definition checkRequiredFlag (log : Logger) (name value : string)
  : Proc unit :=
  if String.eqb value "" then
    log_Info log (requiredMessage name) [] ;;
    record EvUsage ;;
    os_Exit 1
  else ret tt.

(** ** [main] *)

Definition managerOptions (f : Flags) : Options := {|
  LeaderElection := leaderElection f;
  LeaderElectionResourceLock := LeasesResourceLock;
  LeaderElectionID := leaderElectionId;
  LeaderElectionNamespace := leaderElectionNamespace f;
  Metrics := {| BindAddress := ":" ++ itoa (metricsPort f) |};
  HealthProbeBindAddress := ":" ++ itoa (healthProbePort f)
|}.

Definition log : Logger := WithName Log componentName.

Definition main (Version : string) (cmd : list Argument) : Proc unit :=
  level <- deref logLevel ;;
  format <- deref logFormat ;;
  record (EvSetLogger (MustNewZapLogger level format)) ;;
  record (EvKlogSetLogger log) ;;
  log_Info log "version" [("version", Version)] ;;

  pflag_Parse cmd ;;
  v <- deref namespace ;; checkRequiredFlag log "namespace" v ;;
  v <- deref secretName ;; checkRequiredFlag log "secret-name" v ;;
  v <- deref region ;; checkRequiredFlag log "region" v ;;
  v <- deref clusterName ;; checkRequiredFlag log "cluster-name" v ;;
  v <- deref podNetworkCidr ;; checkRequiredFlag log "pod-network-cidr" v ;;
  v <- deref targetKubeconfig ;; checkRequiredFlag log "target-kubeconfig" v ;;

  kubeconfig <- deref targetKubeconfig ;;
  r <- call (EvBuildConfigFromFlags "" kubeconfig)
            (BuildConfigFromFlags "" kubeconfig) ;;
  match r with
  | Err err =>
      log_Error log err "could not use target kubeconfig"
            [("target-kubeconfig", kubeconfig)] ;;
      os_Exit 1
  | Ok targetConfig =>
  options <- deref managerOptions ;;
  r <- call (EvManagerNew targetConfig options)
            (manager_New targetConfig options) ;;
  match r with
  | Err err => log_Error log err "could not create manager" [] ;; os_Exit 1
  | Ok mgr =>
  reconciler <- call (EvNewNodeReconciler mgr log componentName)
                     (NewNodeReconciler (GetClient mgr) log (Elected mgr)
                        (GetEventRecorderFor mgr componentName)) ;;
  r <- call (EvComplete mgr reconciler) (Complete mgr reconciler) ;;
  match r with
  | Some err => log_Error log err "could not create controller" [] ;; os_Exit 1
  | None =>
  r <- call (EvAddReadyzCheck mgr "node reconciler" (ReadyChecker reconciler))
            (AddReadyzCheck mgr "node reconciler" (ReadyChecker reconciler)) ;;
  match r with
  | Some err => log_Error log err "could not add ready checker" [] ;; os_Exit 1
  | None =>
  r <- call (EvAddHealthzCheck mgr "node reconciler"
               (HealthzChecker reconciler))
            (AddHealthzCheck mgr "node reconciler"
               (HealthzChecker reconciler)) ;;
  match r with
  | Some err =>
      log_Error log err "could not add healthz checker" [] ;; os_Exit 1
  | None =>
  control <- deref controlKubeconfig ;;
  ns <- deref namespace ;;
  secret <- deref secretName ;;
  r <- call (EvLoadCredentials control ns secret)
            (LoadCredentials control ns secret) ;;
  match r with
  | Err err =>
      log_Error log err "could not load AWS credentials"
            [("namespace", ns); ("secretName", secret)] ;;
      os_Exit 1
  | Ok credentials =>
  reg <- deref region ;;
  r <- call (EvNewAWSEC2Routes credentials reg)
            (NewAWSEC2Routes credentials reg) ;;
  match r with
  | Err err =>
      log_Error log err "could not create AWS EC2 interface" [] ;; os_Exit 1
  | Ok ec2Routes =>
  cidr <- deref podNetworkCidr ;;
  r <- call (EvGetIPv4CIDR (Split cidr comma))
            (GetIPv4CIDR (Split cidr comma)) ;;
  match r with
  | Err err =>
      log_Error log err "could not parse IPv4 address from pod-network-cidr"
                [] ;;
      os_Exit 1
  | Ok podCIDR =>
  cluster <- deref clusterName ;;
  r <- call (EvNewCustomRoutes (WithName log "updater") ec2Routes cluster
               podCIDR)
            (NewCustomRoutes (WithName log "updater") ec2Routes cluster
               podCIDR) ;;
  match r with
  | Err err =>
      log_Error log err "could not create AWS custom routes updater" [] ;;
      os_Exit 1
  | Ok customRoutes =>
  ctx <- call EvSetupSignalHandler SetupSignalHandler ;;
  tick <- deref tickPeriod ;;
  sync <- deref syncPeriod ;;
  delay <- deref maxDelay ;;
  record (EvStartUpdater reconciler ctx (Update customRoutes)
            tick sync delay) ;;
  r <- call (EvStart mgr ctx) (Start mgr ctx) ;;
  match r with
  | Some err => log_Error log err "could not start manager" [] ;; os_Exit 1
  | None => ret tt
  end end end end end end end end end end.

(** The process at its start: every cell holds its default and nothing
    has been called. *)
Definition boot : Process := {| flagStore := defaults; events := [] |}.

(** The execution on a command line that pflag reads to its end, given
    by its settings. *)
Definition run (Version : string) (args : list Setting)
  : Process * Outcome unit :=
  main Version (map Flag args) boot.

End Program.

(** ** Vocabulary of the statements *)

Section Vocabulary.

Context {collab : Collaborators}.

(** The flags [main] checks with [checkRequiredFlag], in the order of the
    checks, each with the content of its cell. *)
Definition requiredFlags (f : Flags) : list (string * string) :=
  [ ("namespace", namespace f);
    ("secret-name", secretName f);
    ("region", region f);
    ("cluster-name", clusterName f);
    ("pod-network-cidr", podNetworkCidr f);
    ("target-kubeconfig", targetKubeconfig f) ].

(** What every execution does first: lines 61 to 67 of [main.go]. *)
Definition preludeOf (Version : string) (cmd : list Argument)
  : list Event :=
  [ EvSetLogger (MustNewZapLogger InfoLevel FormatJSON);
    EvKlogSetLogger log;
    EvInfo log "version" [("version", Version)];
    EvParse cmd ].

Definition prelude (Version : string) (args : list Setting) : list Event :=
  preludeOf Version (map Flag args).

(** The calls that build a client or reach a system outside the process:
    all but logging, flag parsing and the usage message. *)
Definition reachesOutside (e : Event) : bool :=
  match e with
  | EvSetLogger _ | EvKlogSetLogger _ | EvInfo _ _ _ | EvError _ _ _ _
  | EvParse _ | EvParseError _ | EvUsage => false
  | _ => true
  end.

Definition isStartUpdater (e : Event) : bool :=
  match e with
  | EvStartUpdater _ _ _ _ _ _ => true
  | _ => false
  end.

(** The last thing written before the process stopped was a log record:
    an error record, or the record of a missing flag followed by the
    usage message. *)
Definition loggedBeforeExit (tr : list Event) : bool :=
  match rev tr with
  | EvError _ _ _ _ :: _ => true
  | EvUsage :: EvInfo _ _ _ :: _ => true
  | _ => false
  end.

(** The error a recorded call returned, if it returned one. *)
Definition failure (e : Event) : option error :=
  match e with
  | EvBuildConfigFromFlags url path =>
      match BuildConfigFromFlags url path with
      | Err x => Some x
      | Ok _ => None
      end
  | EvManagerNew config options =>
      match manager_New config options with Err x => Some x | Ok _ => None end
  | EvComplete m r => Complete m r
  | EvAddReadyzCheck m name check => AddReadyzCheck m name check
  | EvAddHealthzCheck m name check => AddHealthzCheck m name check
  | EvLoadCredentials kubeconfig ns secret =>
      match LoadCredentials kubeconfig ns secret with
      | Err x => Some x
      | Ok _ => None
      end
  | EvNewAWSEC2Routes c reg =>
      match NewAWSEC2Routes c reg with Err x => Some x | Ok _ => None end
  | EvGetIPv4CIDR cidrs =>
      match GetIPv4CIDR cidrs with Err x => Some x | Ok _ => None end
  | EvNewCustomRoutes l r cluster podCIDR =>
      match NewCustomRoutes l r cluster podCIDR with
      | Err x => Some x
      | Ok _ => None
      end
  | EvStart m ctx => Start m ctx
  | _ => None
  end.

(** The messages of the error records of [main.go]. *)
Definition fatalMessages : list string :=
  [ "could not use target kubeconfig";
    "could not create manager";
    "could not create controller";
    "could not add ready checker";
    "could not add healthz checker";
    "could not load AWS credentials";
    "could not create AWS EC2 interface";
    "could not parse IPv4 address from pod-network-cidr";
    "could not create AWS custom routes updater";
    "could not start manager" ].

(** The message of the last record of the execution, when the last
    event is an error record. *)
Definition lastErrorMessage (tr : list Event) : option string :=
  match rev tr with
  | EvError _ _ msg _ :: _ => Some msg
  | _ => None
  end.

(** The logger values installed with [logf.SetLogger]. *)
Definition installedLoggers (tr : list Event) : list ZapLogger :=
  flat_map (fun e => match e with EvSetLogger l => [l] | _ => [] end) tr.

(** The flag is given on the command line. *)
Definition given (name : string) (args : list Setting) : bool :=
  existsb (fun s => String.eqb (flagName s) name) args.

End Vocabulary.

(** ** A concrete set of collaborators

    Used to run [main] on concrete command lines.  The call number
    [failing] returns an error ([0]: none does); a manager is the options
    it was made with, an updater the cluster name and the range it was
    made with, and a list of CIDRs is refused also when one of them is
    empty. *)
Module Demo.

Definition unless (failing k : nat) {A : Type} (what : string) (a : A)
  : result string A :=
  if Nat.eqb failing k then Err what else Ok a.

Definition unless' (failing k : nat) (what : string) : option string :=
  if Nat.eqb failing k then Some what else None.

Definition parseCIDRs (cidrs : list string) : result string (list string) :=
  if existsb (fun c => String.eqb c "") cidrs
  then Err "invalid CIDR address"
  else Ok cidrs.

Definition world (failing : nat) : Collaborators := {|
  error := string;
  RestConfig := string;
  Manager := Options;
  Client := unit;
  ElectedChan := unit;
  EventRecorder := string;
  NodeReconciler := Logger;
  Credentials := string * string;
  EC2Routes := string;
  IPNet := list string;
  CustomRoutes := string * list string;
  Context := unit;
  InClusterConfig := "inClusterConfig";
  InfoLevel := "info";
  FormatJSON := "json";
  BuildConfigFromFlags := fun _ path => unless failing 1 "no such file" path;
  manager_New := fun _ options => unless failing 2 "no API server" options;
  GetClient := fun _ => tt;
  Elected := fun _ => tt;
  GetEventRecorderFor := fun _ name => name;
  NewNodeReconciler := fun _ l _ _ => l;
  Complete := fun _ _ => unless' failing 3 "no controller";
  AddReadyzCheck := fun _ _ _ => unless' failing 4 "no readyz";
  AddHealthzCheck := fun _ _ _ => unless' failing 5 "no healthz";
  LoadCredentials := fun _ ns secret =>
    unless failing 6 "no secret" (ns, secret);
  NewAWSEC2Routes := fun _ reg => unless failing 7 "no session" reg;
  GetIPv4CIDR := fun cidrs =>
    if Nat.eqb failing 8 then Err "no IPv4 range" else parseCIDRs cidrs;
  NewCustomRoutes := fun _ _ cluster podCIDR =>
    unless failing 9 "no updater" (cluster, podCIDR);
  SetupSignalHandler := tt;
  Start := fun _ _ => unless' failing 10 "manager stopped"
|}.

(** A command line giving every required flag. *)
Definition commandLine : list Setting :=
  [ namespace_ "shoot--foo--bar";
    region_ "eu-west-1";
    cluster_name "shoot--foo--bar";
    pod_network_cidr "100.96.0.0/11";
    target_kubeconfig "/etc/target/kubeconfig" ].

(** The same with a comma after the range of the pod network. *)
Definition trailingComma : list Setting :=
  commandLine ++ [pod_network_cidr "100.96.0.0/11,"].

(** The same asking for debug logs in text format. *)
Definition debugText : list Setting :=
  commandLine ++ [log_level "debug"; log_format "text"].

(** The same with an empty secret name. *)
Definition emptySecret : list Setting :=
  commandLine ++ [secret_name ""].

(** The same with leader election in a namespace of its own. *)
Definition elected : list Setting :=
  commandLine ++ [leader_election true; leader_election_namespace "garden"].

(** The execution in which call number [failing] returns an error: its
    exit and the message of its last record. *)
Definition fatalRun (failing : nat) : Outcome unit * option string :=
  let r := @run (world failing) "v0.1.0" commandLine in
  (snd r, @lastErrorMessage (world failing) (@events (world failing) (fst r))).

End Demo.

(** ** Vocabulary of the further properties *)

Section Startup.

Context {collab : Collaborators}.

(** The first required flag whose cell is empty, in the order of the
    checks of lines 68 to 73. *)
Definition firstMissing (f : Flags) : option string :=
  option_map fst
    (find (fun flag => String.eqb (snd flag) "") (requiredFlags f)).

(** The flags declared with an empty default and checked as required. *)
Definition flagsWithoutDefault : list string :=
  [ "namespace"; "region"; "cluster-name"; "pod-network-cidr";
    "target-kubeconfig" ].

(** The place of a call in [main.go] among the calls that leave the
    package, counted from 1 in the order of the source. *)
Definition callNumber (e : Event) : option nat :=
  match e with
  | EvBuildConfigFromFlags _ _ => Some 1
  | EvManagerNew _ _ => Some 2
  | EvNewNodeReconciler _ _ _ => Some 3
  | EvComplete _ _ => Some 4
  | EvAddReadyzCheck _ _ _ => Some 5
  | EvAddHealthzCheck _ _ _ => Some 6
  | EvLoadCredentials _ _ _ => Some 7
  | EvNewAWSEC2Routes _ _ => Some 8
  | EvGetIPv4CIDR _ => Some 9
  | EvNewCustomRoutes _ _ _ _ => Some 10
  | EvSetupSignalHandler => Some 11
  | EvStartUpdater _ _ _ _ _ _ => Some 12
  | EvStart _ _ => Some 13
  | _ => None
  end%nat.

Definition callNumbers (tr : list Event) : list nat :=
  flat_map (fun e => match callNumber e with
                     | Some n => [n]
                     | None => []
                     end) tr.

(** The reconciler [main] builds on a manager (line 96). *)
Definition reconcilerOf (mgr : Manager) : NodeReconciler :=
  NewNodeReconciler (GetClient mgr) log (Elected mgr)
    (GetEventRecorderFor mgr componentName).

(** The calls of lines 75 to 140 with the values they return, when each
    of them succeeds. *)
Definition startupCalls (f : Flags) (config : RestConfig) (mgr : Manager)
    (credentials : Credentials) (ec2 : EC2Routes) (net : IPNet)
    (routes : CustomRoutes) : list Event :=
  [ EvBuildConfigFromFlags "" (targetKubeconfig f);
    EvManagerNew config (managerOptions f);
    EvNewNodeReconciler mgr log componentName;
    EvComplete mgr (reconcilerOf mgr);
    EvAddReadyzCheck mgr "node reconciler" (ReadyChecker (reconcilerOf mgr));
    EvAddHealthzCheck mgr "node reconciler"
      (HealthzChecker (reconcilerOf mgr));
    EvLoadCredentials (controlKubeconfig f) (namespace f) (secretName f);
    EvNewAWSEC2Routes credentials (region f);
    EvGetIPv4CIDR (Split (podNetworkCidr f) comma);
    EvNewCustomRoutes (WithName log "updater") ec2 (clusterName f) net;
    EvSetupSignalHandler;
    EvStartUpdater (reconcilerOf mgr) SetupSignalHandler (Update routes)
      (tickPeriod f) (syncPeriod f) (maxDelay f);
    EvStart mgr SetupSignalHandler ].

(** Each call of [main] returns without an error, with these values. *)
Definition everyCallSucceeds (f : Flags) (config : RestConfig)
    (mgr : Manager) (credentials : Credentials) (ec2 : EC2Routes)
    (net : IPNet) (routes : CustomRoutes) : Prop :=
  BuildConfigFromFlags "" (targetKubeconfig f) = Ok config /\
  manager_New config (managerOptions f) = Ok mgr /\
  Complete mgr (reconcilerOf mgr) = None /\
  AddReadyzCheck mgr "node reconciler" (ReadyChecker (reconcilerOf mgr)) =
    None /\
  AddHealthzCheck mgr "node reconciler" (HealthzChecker (reconcilerOf mgr)) =
    None /\
  LoadCredentials (controlKubeconfig f) (namespace f) (secretName f) =
    Ok credentials /\
  NewAWSEC2Routes credentials (region f) = Ok ec2 /\
  GetIPv4CIDR (Split (podNetworkCidr f) comma) = Ok net /\
  NewCustomRoutes (WithName log "updater") ec2 (clusterName f) net =
    Ok routes /\
  Start mgr SetupSignalHandler = None.

(** The keys and values [main] adds to the error record with message
    [msg] (lines 77 and 118; the other records have none). *)
Definition recordContext (f : Flags) (msg : string)
  : list (string * string) :=
  if String.eqb msg "could not use target kubeconfig" then
    [("target-kubeconfig", targetKubeconfig f)]
  else if String.eqb msg "could not load AWS credentials" then
    [("namespace", namespace f); ("secretName", secretName f)]
  else [].

End Startup.

(** Further command lines. *)
Module Cases.

(** Two ranges for the pod network. *)
Definition dualStack : list Setting :=
  Demo.commandLine ++ [pod_network_cidr "100.96.0.0/11,fd00:10::/56"].

(** No region. *)
Definition noRegion : list Setting :=
  [ namespace_ "shoot--foo--bar";
    cluster_name "shoot--foo--bar";
    pod_network_cidr "100.96.0.0/11";
    target_kubeconfig "/etc/target/kubeconfig" ].

(** Neither region nor cluster name, and an empty secret name. *)
Definition severalMissing : list Setting :=
  [ namespace_ "shoot--foo--bar";
    secret_name "";
    pod_network_cidr "100.96.0.0/11" ].

End Cases.

(** ** Vocabulary of the shutdown and of the command line *)

Section Shutdown.

Context {collab : Collaborators}.

(** The work [main] leaves running: the synchronization started by
    [StartUpdater] and the manager started by [mgr.Start]. *)
Inductive Work : Type :=
| SyncWork
| ManagerWork.

(** The work an execution has started, each with the context it was
    given (lines 139 and 140). *)
Definition startedWork (tr : list Event) : list (Work * Context) :=
  flat_map (fun e => match e with
                     | EvStartUpdater _ ctx _ _ _ _ => [(SyncWork, ctx)]
                     | EvStart _ ctx => [(ManagerWork, ctx)]
                     | _ => []
                     end) tr.

(** Modelled from the spec: what the work started by
    [reconciler.StartUpdater] (package [controller], not under src/) and
    by [mgr.Start] does with the context it is given.  Section 5: "all
    cloud operations and the overall process respect a shared
    cancellation signal tied to process shutdown; an in-flight cycle
    aborts remaining mutations promptly on cancellation rather than
    completing them".  So work goes on as long as its context is not
    cancelled, and only so long; [cancelled] tells which contexts are
    cancelled at a moment of the execution. *)
Definition mayContinue (cancelled : Context -> bool) (w : Work * Context)
  : bool :=
  negb (cancelled (snd w)).

(** The flag is given on a command line as pflag reads it. *)
Definition givenIn (name : string) (cmd : list Argument) : bool :=
  existsb (fun a => match a with
                    | Flag s => String.eqb (flagName s) name
                    | _ => false
                    end) cmd.

End Shutdown.

(** Collaborators with two contexts: the one of the signal handler,
    "signal", and any other, such as "background"; every call
    succeeds. *)
Module Shutdown.

Definition world : Collaborators := {|
  error := string;
  RestConfig := string;
  Manager := Options;
  Client := unit;
  ElectedChan := unit;
  EventRecorder := string;
  NodeReconciler := Logger;
  Credentials := string * string;
  EC2Routes := string;
  IPNet := list string;
  CustomRoutes := string * list string;
  Context := string;
  InClusterConfig := "inClusterConfig";
  InfoLevel := "info";
  FormatJSON := "json";
  BuildConfigFromFlags := fun _ path => Ok path;
  manager_New := fun _ options => Ok options;
  GetClient := fun _ => tt;
  Elected := fun _ => tt;
  GetEventRecorderFor := fun _ name => name;
  NewNodeReconciler := fun _ l _ _ => l;
  Complete := fun _ _ => None;
  AddReadyzCheck := fun _ _ _ => None;
  AddHealthzCheck := fun _ _ _ => None;
  LoadCredentials := fun _ ns secret => Ok (ns, secret);
  NewAWSEC2Routes := fun _ reg => Ok reg;
  GetIPv4CIDR := fun cidrs => Ok cidrs;
  NewCustomRoutes := fun _ _ cluster podCIDR => Ok (cluster, podCIDR);
  SetupSignalHandler := "signal";
  Start := fun _ _ => None
|}.

(** The contexts cancelled once the shutdown signal has arrived: the one
    of the signal handler, and no other. *)
Definition afterSignal (ctx : string) : bool := String.eqb ctx "signal".

(** The contexts cancelled before the signal: none. *)
Definition beforeSignal (ctx : string) : bool := false.

End Shutdown.

(** Command lines as pflag reads them. *)
Module Lines.

(** A port as pflag decodes it. *)
Definition port9090 : Int64 := {| intValue := 9090; intFits := eq_refl |}.

(** A command line with a flag that is not declared. *)
Definition unknownFlag : list Argument :=
  map Flag Demo.commandLine ++
  [Refused "unknown flag: --verbose"; Flag (metrics_port port9090)].

(** A command line with no namespace and a port that is not a number. *)
Definition badPort : list Argument :=
  [ Flag (region_ "eu-west-1");
    Refused "invalid argument x for --metrics-port flag" ].

(** A command line asking for help. *)
Definition help : list Argument :=
  [ Flag (region_ "eu-west-1"); HelpRequest ].

End Lines.

(** ** Proof tools *)

(** A command line made of settings is read to its end. *)
Lemma parseArguments_settings (args : list Setting) (store : Flags) :
  parseArguments store (map Flag args) = (parseFlags store args, Parsed).
Proof.
  revert store. induction args as [| s args IH]; intro store;
    [ reflexivity | apply IH ].
Qed.

Lemma accepted_settings (cmd : list Argument) :
  forall args, accepted cmd = Some args -> cmd = map Flag args.
Proof.
  induction cmd as [| a cmd IH]; intros args H.
  - injection H as <-. reflexivity.
  - destruct a as [s | message |]; try discriminate H.
    simpl in H. destruct (accepted cmd) as [rest |]; try discriminate H.
    injection H as <-. simpl. f_equal. apply IH. reflexivity.
Qed.

Lemma accepted_map (args : list Setting) :
  accepted (map Flag args) = Some args.
Proof.
  induction args as [| s args IH]; simpl; [ | rewrite IH ]; reflexivity.
Qed.

(** A command line that is not read to its end stops pflag at a refused
    argument or at a request for help. *)
Lemma not_accepted (cmd : list Argument) :
  accepted cmd = None ->
  forall store,
    (exists cells message,
       parseArguments store cmd = (cells, Failed message)) \/
    (exists cells, parseArguments store cmd = (cells, Helped)).
Proof.
  induction cmd as [| a cmd IH]; intros H store; [ discriminate H | ].
  destruct a as [s | message |]; simpl.
  - simpl in H. destruct (accepted cmd); [ discriminate H | ].
    apply IH. reflexivity.
  - left. do 2 eexists. reflexivity.
  - right. eexists. reflexivity.
Qed.

Lemma givenIn_settings (name : string) (args : list Setting) :
  givenIn name (map Flag args) = given name args.
Proof.
  induction args as [| s args IH]; simpl; [ | rewrite <- IH ]; reflexivity.
Qed.

Section CommandLine.

Context {collab : Collaborators}.

(** On an argument pflag refuses, the process ends inside [pflag.Parse]
    with status 2, after the error and the usage message. *)
Lemma main_when_refused (Version : string) (cmd : list Argument)
    (cells : Flags) (message : string) :
  parseArguments defaults cmd = (cells, Failed message) ->
  main Version cmd boot =
    ({| flagStore := cells;
        events := preludeOf Version cmd ++ [EvParseError message; EvUsage] |},
     Exited 2%Z).
Proof.
  intro H.
  cbv beta iota zeta delta
    [main bind ret Monad_Proc record deref os_Exit pflag_Parse log_Info
     boot flagStore events app preludeOf].
  rewrite H. reflexivity.
Qed.

(** On a request for help, it ends there with status 0, after the usage
    message. *)
Lemma main_when_helped (Version : string) (cmd : list Argument)
    (cells : Flags) :
  parseArguments defaults cmd = (cells, Helped) ->
  main Version cmd boot =
    ({| flagStore := cells; events := preludeOf Version cmd ++ [EvUsage] |},
     Exited 0%Z).
Proof.
  intro H.
  cbv beta iota zeta delta
    [main bind ret Monad_Proc record deref os_Exit pflag_Parse log_Info
     boot flagStore events app preludeOf].
  rewrite H. reflexivity.
Qed.

End CommandLine.

(** Splits on the command line named [cmd]: read to its end, and then the
    execution is [run] on its settings, or stopped by pflag. *)
Ltac by_command_line cmd args :=
  let Hacc := fresh "Haccepted" in
  destruct (accepted cmd) as [args |] eqn:Hacc;
  [ apply accepted_settings in Hacc; subst cmd;
    match goal with
    | |- context [main ?v (map Flag args) boot] =>
        change (main v (map Flag args) boot) with (run v args)
    end
  | let Hstop := fresh "Hstop" in
    let cells := fresh "cells" in
    let message := fresh "message" in
    destruct (not_accepted cmd Hacc defaults)
      as [(cells & message & Hstop) | (cells & Hstop)];
    [ rewrite (main_when_refused _ cmd cells message Hstop)
    | rewrite (main_when_helped _ cmd cells Hstop) ];
    cbn beta iota zeta delta [fst snd events flagStore];
    unfold preludeOf; cbn [app] ].

(** Unfolds the monad of [main] in [H] as far as the next test. *)
Ltac reduce_main H :=
  cbv beta iota zeta delta
    [run main bind ret Monad_Proc record deref os_Exit pflag_Parse log_Info
     log_Error call checkRequiredFlag boot flagStore events app prelude
     preludeOf] in H.

(** Decides the next test of [main] in [H]: a required flag, or the
    result of a call. *)
Ltac next_test H :=
  match type of H with
  | context [String.eqb ?v ""] =>
      let E := fresh "Hflag" in
      revert H; destruct (String.eqb_spec v "") as [E | E]; intro H
  | context [match ?c with Ok _ => _ | Err _ => _ end] =>
      let E := fresh "Hcall" in revert H; destruct c eqn:E; intro H
  | context [match ?c with Some _ => _ | None => _ end] =>
      let E := fresh "Hcall" in revert H; destruct c eqn:E; intro H
  end;
  reduce_main H.

(** Every path of the execution named in the goal, one goal each, with
    the process it leaves and its outcome written out. *)
Ltac all_paths :=
  match goal with
  | |- context [run ?v ?a] =>
      let p := fresh "p" in
      let o := fresh "o" in
      let H := fresh "Hrun" in
      destruct (run v a) as [p o] eqn:H;
      reduce_main H; rewrite parseArguments_settings in H;
      reduce_main H; repeat next_test H;
      injection H as <- <-;
      cbn beta iota zeta delta [fst snd events flagStore]
  end.

(** Splits [In x l] for a list [l] written out. *)
Ltac pick H :=
  cbn [In] in H;
  repeat (destruct H as [H | H]);
  try contradiction; try discriminate H.

(** Closes [exists before, l = before ++ suffix] for lists written out. *)
Ltac ends_with :=
  match goal with
  | |- exists before, ?l = before ++ ?suffix =>
      let n := eval compute in (length l - length suffix)%nat in
      exists (firstn n l); reflexivity
  end.

(** Uses the recorded results of the calls in [H]. *)
Ltac use_calls H :=
  repeat match goal with
         | Hc : ?c = _ |- _ =>
             tryif constr_eq Hc H then fail else rewrite Hc in H
         end.

(** ** [strings.Split] *)

Lemma Split_not_nil (s : string) (sep : ascii) : Split s sep <> [].
Proof.
  destruct s as [| c rest]; simpl; [ discriminate | ].
  destruct (Ascii.eqb c sep); [ discriminate | ].
  destruct (Split rest sep); discriminate.
Qed.

(** Joining the pieces with the separator gives the string back. *)
Lemma concat_Split (s : string) (sep : ascii) :
  String.concat (String sep "") (Split s sep) = s.
Proof.
  induction s as [| c rest IH]; [ reflexivity | ].
  simpl. destruct (Ascii.eqb_spec c sep) as [-> | Hne].
  - pose proof (Split_not_nil rest sep) as Hnil.
    simpl. destruct (Split rest sep) as [| piece pieces];
      [ contradiction | ].
    rewrite <- IH. reflexivity.
  - pose proof (Split_not_nil rest sep) as Hnil.
    destruct (Split rest sep) as [| piece pieces]; [ contradiction | ].
    rewrite <- IH. simpl. destruct pieces; reflexivity.
Qed.

(** No piece contains the separator. *)
Lemma Split_pieces (s : string) (sep : ascii) :
  Forall (fun piece => Contains piece sep = false) (Split s sep).
Proof.
  induction s as [| c rest IH]; simpl.
  - repeat constructor.
  - destruct (Ascii.eqb c sep) eqn:Hc.
    + constructor; [ reflexivity | exact IH ].
    + destruct (Split rest sep) as [| piece pieces].
      * repeat constructor. simpl. rewrite Hc. reflexivity.
      * inversion IH as [| ? ? Hpiece Hpieces]; subst.
        constructor; [ | exact Hpieces ].
        simpl. rewrite Hc. exact Hpiece.
Qed.

(** There is one piece more than there are separators. *)
Lemma length_Split (s : string) (sep : ascii) :
  length (Split s sep) = S (Count s sep).
Proof.
  induction s as [| c rest IH]; simpl; [ reflexivity | ].
  destruct (Ascii.eqb c sep); simpl.
  - rewrite IH. reflexivity.
  - pose proof (Split_not_nil rest sep) as Hnil.
    destruct (Split rest sep); [ contradiction | exact IH ].
Qed.

(** ** [pflag.Parse] *)

Lemma parseFlags_cons (f : Flags) (s : Setting) (args : list Setting) :
  parseFlags f (s :: args) = parseFlags (setFlag f s) args.
Proof. reflexivity. Qed.

Lemma parseFlags_app (f : Flags) (args more : list Setting) :
  parseFlags f (args ++ more) = parseFlags (parseFlags f args) more.
Proof. apply fold_left_app. Qed.

(** A cell that only the flag [name] writes keeps its content when the
    flag is not given. *)
Lemma parseFlags_keeps {A : Type} (cell : Flags -> A) (name : string) :
  (forall f s, String.eqb (flagName s) name = false ->
               cell (setFlag f s) = cell f) ->
  forall args f, given name args = false -> cell (parseFlags f args) = cell f.
Proof.
  intros Hcell args. induction args as [| s args IH]; intros f Hgiven.
  - reflexivity.
  - simpl in Hgiven. apply orb_false_elim in Hgiven as [Hs Hargs].
    rewrite parseFlags_cons, IH by exact Hargs. apply Hcell, Hs.
Qed.

Ltac only_written_by :=
  intros args f; apply parseFlags_keeps; clear;
  intros f s Hs; destruct s; first [ reflexivity | discriminate Hs ].

Lemma secretName_not_given :
  forall args f, given "secret-name" args = false ->
                 secretName (parseFlags f args) = secretName f.
Proof. only_written_by. Qed.

Lemma tickPeriod_not_given :
  forall args f, given "tick-period" args = false ->
                 tickPeriod (parseFlags f args) = tickPeriod f.
Proof. only_written_by. Qed.

Lemma syncPeriod_not_given :
  forall args f, given "sync-period" args = false ->
                 syncPeriod (parseFlags f args) = syncPeriod f.
Proof. only_written_by. Qed.

Lemma maxDelay_not_given :
  forall args f, given "max-delay-on-failure" args = false ->
                 maxDelay (parseFlags f args) = maxDelay f.
Proof. only_written_by. Qed.

Lemma leaderElection_not_given :
  forall args f, given "leader-election" args = false ->
                 leaderElection (parseFlags f args) = leaderElection f.
Proof. only_written_by. Qed.

Lemma leaderElectionNamespace_not_given :
  forall args f, given "leader-election-namespace" args = false ->
                 leaderElectionNamespace (parseFlags f args) =
                 leaderElectionNamespace f.
Proof. only_written_by. Qed.

Lemma healthProbePort_not_given :
  forall args f, given "health-probe-port" args = false ->
                 healthProbePort (parseFlags f args) = healthProbePort f.
Proof. only_written_by. Qed.

Lemma metricsPort_not_given :
  forall args f, given "metrics-port" args = false ->
                 metricsPort (parseFlags f args) = metricsPort f.
Proof. only_written_by. Qed.

(** The cell of secret-name is empty only if the empty value was given. *)
Lemma secretName_empty (args : list Setting) :
  forall f, secretName (parseFlags f args) = "" ->
            secretName f = "" \/ In (secret_name "") args.
Proof.
  induction args as [| s args IH]; intros f H.
  - left. exact H.
  - rewrite parseFlags_cons in H. apply IH in H as [H | H].
    + destruct s; simpl in H;
        try (left; exact H).
      right. left. rewrite H. reflexivity.
    + right. right. exact H.
Qed.

(** The cell of leader-election is true only if the flag was given so. *)
Lemma leaderElection_true (args : list Setting) :
  forall f, leaderElection (parseFlags f args) = true ->
            leaderElection f = true \/ In (leader_election true) args.
Proof.
  induction args as [| s args IH]; intros f H.
  - left. exact H.
  - rewrite parseFlags_cons in H. apply IH in H as [H | H].
    + destruct s; simpl in H;
        try (left; exact H).
      right. left. rewrite H. reflexivity.
    + right. right. exact H.
Qed.

Section Claims.

Context {collab : Collaborators}.

(** C1. When one of the required string flags (cluster-name, namespace,
    secret-name, region, pod-network-cidr, target-kubeconfig) is empty
    after flag parsing, the process writes that the flag is required,
    prints the usage message and exits with status 1; up to the exit it
    has built no client and reached no system outside the process. *)
Theorem C1_missing_required_flag_exits (Version : string)
    (args : list Setting) :
  let f := parseFlags defaults args in
  clusterName f = "" \/ namespace f = "" \/ secretName f = "" \/
  region f = "" \/ podNetworkCidr f = "" \/ targetKubeconfig f = "" ->
  exists name,
    In (name, "") (requiredFlags f) /\
    run Version args =
      ({| flagStore := f;
          events := prelude Version args ++
                    [EvInfo log (requiredMessage name) []; EvUsage] |},
       Exited 1%Z) /\
    forallb (fun e => negb (reachesOutside e))
            (events (fst (run Version args))) = true.
Proof.
  all_paths; intro H.
  all: try (exfalso; tauto).
  all: eexists; unfold requiredFlags; cbn [In].
  all: split; [ | split; reflexivity ].
  all: match goal with E : _ = "" |- _ => rewrite E end; tauto.
Qed.

(** C2. The logger installed at startup is built before the flags are
    parsed: whatever values are given to log-level and log-format (here as
    the last two settings of the command line, so that they are the ones
    the cells hold after parsing), the one logger the process installs is
    built from the defaults of the two flags. *)
Theorem C2_logger_is_built_before_the_flags_are_parsed (Version : string)
    (args : list Setting) (level format : string) :
  let r := run Version (args ++ [log_level level; log_format format]) in
  logLevel (flagStore (fst r)) = level /\
  logFormat (flagStore (fst r)) = format /\
  exists rest,
    events (fst r) =
      EvSetLogger (MustNewZapLogger InfoLevel FormatJSON) :: rest /\
    forall l, ~ In (EvSetLogger l) rest.
Proof.
  set (cmd := args ++ [log_level level; log_format format]).
  assert (Hcmd : parseFlags defaults cmd =
                 setFlag (setFlag (parseFlags defaults args)
                            (log_level level)) (log_format format))
    by (unfold cmd; rewrite parseFlags_app; reflexivity).
  all_paths.
  all: rewrite Hcmd; (split; [ reflexivity | ]); (split; [ reflexivity | ]).
  all: eexists; (split; [ reflexivity | ]); intros l H; pick H.
Qed.

(** C3. When the value of pod-network-cidr is refused by the IPv4 CIDR
    parser, the process exits with status 1 after a log record and never
    starts the route updater; when the execution gets as far as parsing
    the value, the record is the parser's error with the message of line
    128 and nothing follows it. *)
Theorem C3_unparsable_pod_cidr_is_fatal (Version : string)
    (args : list Setting) (err : error) :
  let cidrs := Split (podNetworkCidr (parseFlags defaults args)) comma in
  GetIPv4CIDR cidrs = Err err ->
  let r := run Version args in
  snd r = Exited 1%Z /\
  loggedBeforeExit (events (fst r)) = true /\
  existsb isStartUpdater (events (fst r)) = false /\
  (In (EvGetIPv4CIDR cidrs) (events (fst r)) ->
   exists before,
     events (fst r) =
     before ++
     [EvGetIPv4CIDR cidrs;
      EvError log err "could not parse IPv4 address from pod-network-cidr"
        []]).
Proof.
  intros cidrs Hcidr. subst cidrs. all_paths.
  all: try discriminate Hcidr.
  all: try (injection Hcidr as ->).
  all: (split; [ reflexivity | ]); (split; [ reflexivity | ]);
       (split; [ reflexivity | ]).
  all: intro H; pick H.
  ends_with.
Qed.

(** [StartUpdater] is called once, with one sync function, the [Update]
    method of the updater built by [NewCustomRoutes], and with the
    contents of the cells of tick-period, sync-period and
    max-delay-on-failure: 5 seconds, 1 hour and 5 minutes when the flags
    are not given.  What [StartUpdater] does with them is not in
    [main.go]. *)
Theorem updater_is_started_once_with_the_period_flags (Version : string)
    (args : list Setting) (r : NodeReconciler) (ctx : Context)
    (fn : SyncFunc CustomRoutes) (tick sync delay : Duration) :
  In (EvStartUpdater r ctx fn tick sync delay)
     (events (fst (run Version args))) ->
  let f := parseFlags defaults args in
  (exists ec2 net routes,
     NewCustomRoutes (WithName log "updater") ec2 (clusterName f) net =
       Ok routes /\
     fn = Update routes) /\
  tick = tickPeriod f /\ sync = syncPeriod f /\ delay = maxDelay f /\
  (given "tick-period" args = false -> tick = 5000000000%Z) /\
  (given "sync-period" args = false -> sync = 3600000000000%Z) /\
  (given "max-delay-on-failure" args = false -> delay = 300000000000%Z) /\
  length (filter isStartUpdater (events (fst (run Version args)))) = 1.
Proof.
  all_paths; intro H; pick H; inversion H; subst.
  all: split; [ do 3 eexists; split; [ eassumption | reflexivity ] | ].
  all: do 3 (split; [ reflexivity | ]).
  all: split; [ intro G; rewrite tickPeriod_not_given by exact G;
                reflexivity | ].
  all: split; [ intro G; rewrite syncPeriod_not_given by exact G;
                reflexivity | ].
  all: split; [ intro G; rewrite maxDelay_not_given by exact G;
                reflexivity | ].
  all: reflexivity.
Qed.

(** C5. The manager is started with the context returned by the signal
    handler, the updater was started just before it with the same
    context, right after the signal handler was set up, and no call of
    the execution is given another context: the work started is the
    synchronization and the manager, both on the signal handler's
    context.  So, with work that respects its context as section 5 of
    the spec says, once the shutdown signal has cancelled the handler's
    context neither of the two goes on, whatever else is cancelled or
    not; and until then both go on, since they depend on no other
    context. *)
Theorem C5_updater_and_manager_share_the_signal_context (Version : string)
    (args : list Setting) (m : Manager) (ctx : Context) :
  In (EvStart m ctx) (events (fst (run Version args))) ->
  ctx = SetupSignalHandler /\
  (exists before r fn tick sync delay after,
     events (fst (run Version args)) =
     before ++
     [EvSetupSignalHandler; EvStartUpdater r ctx fn tick sync delay;
      EvStart m ctx] ++ after) /\
  (forall r c fn tick sync delay,
     In (EvStartUpdater r c fn tick sync delay)
        (events (fst (run Version args))) -> c = ctx) /\
  (forall m' c, In (EvStart m' c) (events (fst (run Version args))) ->
                c = ctx) /\
  startedWork (events (fst (run Version args))) =
    [(SyncWork, SetupSignalHandler); (ManagerWork, SetupSignalHandler)] /\
  forall cancelled : Context -> bool,
    (cancelled SetupSignalHandler = true ->
     forallb (fun w => negb (mayContinue cancelled w))
             (startedWork (events (fst (run Version args)))) = true) /\
    (cancelled SetupSignalHandler = false ->
     forallb (mayContinue cancelled)
             (startedWork (events (fst (run Version args)))) = true).
Proof.
  all_paths; intro H; pick H; inversion H; subst.
  all: split; [ reflexivity | ].
  all: split;
    [ match goal with
      | |- exists before, _ =>
          match goal with
          | |- context [?l = _ ++ _] => exists (firstn 14 l)
          end
      end; do 6 eexists; reflexivity | ].
  all: split;
    [ intros ? ? ? ? ? ? G; pick G; inversion G; reflexivity | ].
  all: split; [ intros ? ? G; pick G; inversion G; reflexivity | ].
  all: split; [ reflexivity | ].
  all: intro cancelled; unfold startedWork, mayContinue;
    cbn [flat_map app forallb snd].
  all: split; intro Hc; rewrite Hc; reflexivity.
Qed.

(** C6. In an execution that starts the manager, the manager was made
    with the health-probe address [":" ++ health-probe-port] and the
    metrics address [":" ++ metrics-port] (":8081" and ":8080" when the
    flags are not given), the node reconciler built on that manager was
    registered with it as a controller, and the only readiness and
    health checks registered on it are the reconciler's [ReadyChecker]
    and [HealthzChecker], both under the name "node reconciler". *)
Theorem C6_probes_are_driven_by_the_node_reconciler (Version : string)
    (args : list Setting) (m : Manager) (ctx : Context) :
  In (EvStart m ctx) (events (fst (run Version args))) ->
  let f := parseFlags defaults args in
  let tr := events (fst (run Version args)) in
  let reconciler :=
    NewNodeReconciler (GetClient m) log (Elected m)
      (GetEventRecorderFor m componentName) in
  (exists config,
     manager_New config (managerOptions f) = Ok m /\
     In (EvManagerNew config (managerOptions f)) tr) /\
  HealthProbeBindAddress (managerOptions f) =
    (":" ++ itoa (healthProbePort f))%string /\
  BindAddress (Metrics (managerOptions f)) =
    (":" ++ itoa (metricsPort f))%string /\
  (given "health-probe-port" args = false ->
   HealthProbeBindAddress (managerOptions f) = ":8081") /\
  (given "metrics-port" args = false ->
   BindAddress (Metrics (managerOptions f)) = ":8080") /\
  In (EvComplete m reconciler) tr /\
  In (EvAddReadyzCheck m "node reconciler" (ReadyChecker reconciler)) tr /\
  In (EvAddHealthzCheck m "node reconciler" (HealthzChecker reconciler)) tr /\
  (forall m' name check, In (EvAddReadyzCheck m' name check) tr ->
     m' = m /\ name = "node reconciler" /\
     check = ReadyChecker reconciler) /\
  (forall m' name check, In (EvAddHealthzCheck m' name check) tr ->
     m' = m /\ name = "node reconciler" /\
     check = HealthzChecker reconciler).
Proof.
  all_paths; intro H; pick H; inversion H; subst.
  all: split; [ eexists; split; [ eassumption | cbn [In]; tauto ] | ].
  all: do 2 (split; [ reflexivity | ]).
  all: split; [ intro G; cbn [managerOptions HealthProbeBindAddress];
                rewrite healthProbePort_not_given by exact G;
                reflexivity | ].
  all: split; [ intro G; cbn [managerOptions Metrics BindAddress];
                rewrite metricsPort_not_given by exact G;
                reflexivity | ].
  all: do 3 (split; [ cbn [In]; tauto | ]).
  all: split; intros ? ? ? G; pick G; inversion G; subst; tauto.
Qed.

(** C7. The list handed to the IPv4 parser is the value of
    pod-network-cidr split at its commas: joined with commas the pieces
    give the value back, no piece contains a comma, and there is one
    piece more than there are commas.  The range handed to the updater
    is the result of the parser on that list. *)
Theorem C7_pod_network_cidr_is_split_at_commas (Version : string)
    (args : list Setting) (cidrs : list string) :
  In (EvGetIPv4CIDR cidrs) (events (fst (run Version args))) ->
  let value := podNetworkCidr (parseFlags defaults args) in
  cidrs = Split value comma /\
  String.concat "," cidrs = value /\
  Forall (fun piece => Contains piece comma = false) cidrs /\
  length cidrs = S (Count value comma) /\
  (forall l ec2 cluster net,
     In (EvNewCustomRoutes l ec2 cluster net)
        (events (fst (run Version args))) ->
     GetIPv4CIDR cidrs = Ok net) /\
  (forall r ctx routes tick sync delay,
     In (EvStartUpdater r ctx (Update routes) tick sync delay)
        (events (fst (run Version args))) ->
     exists l ec2 cluster net,
       GetIPv4CIDR cidrs = Ok net /\
       NewCustomRoutes l ec2 cluster net = Ok routes).
Proof.
  all_paths; intro H; pick H; inversion H; subst.
  all: split; [ reflexivity | ].
  all: split; [ apply concat_Split | ].
  all: split; [ apply Split_pieces | ].
  all: split; [ apply length_Split | ].
  all: split;
    [ intros ? ? ? ? G; pick G; inversion G; subst; assumption
    | intros ? ? ? ? ? ? G; pick G; inversion G; subst;
      do 4 eexists; split; eassumption ].
Qed.

(** C8. The cell of secret-name holds "cloudprovider" until the flag is
    given, so as long as the command line does not give secret-name the
    empty value, the cell is not empty after parsing (it still holds
    "cloudprovider" when the flag is not given at all) and the process
    never writes that secret-name is required. *)
Theorem C8_secret_name_is_missing_only_when_given_empty (Version : string)
    (args : list Setting) :
  ~ In (secret_name "") args ->
  let f := parseFlags defaults args in
  secretName defaults = "cloudprovider" /\
  secretName f <> "" /\
  (given "secret-name" args = false -> secretName f = "cloudprovider") /\
  ~ In (EvInfo log (requiredMessage "secret-name") [])
       (events (fst (run Version args))).
Proof.
  intros Hnot f.
  assert (Hf : secretName f <> "").
  { intro E. apply secretName_empty in E as [E | E];
      [ discriminate E | contradiction ]. }
  split; [ reflexivity | ].
  split; [ exact Hf | ].
  split; [ intro G; unfold f; rewrite secretName_not_given by exact G;
           reflexivity | ].
  subst f. all_paths.
  all: try contradiction.
  all: intro H; cbv [requiredMessage String.append] in H; pick H.
Qed.

(** C9. The manager is made with [LeaderElection] equal to the cell of
    leader-election: false when the flag is not given, and true only
    when the command line gives it as true.  The lease is
    "aws-custom-route-controller-leader-election", a [leases] lock, in
    the namespace of the cell of leader-election-namespace, which is
    "kube-system" when that flag is not given. *)
Theorem C9_leader_election_is_off_by_default (Version : string)
    (args : list Setting) (config : RestConfig) (options : Options) :
  In (EvManagerNew config options) (events (fst (run Version args))) ->
  let f := parseFlags defaults args in
  LeaderElection options = leaderElection f /\
  (given "leader-election" args = false -> LeaderElection options = false) /\
  (LeaderElection options = true -> In (leader_election true) args) /\
  LeaderElectionID options =
    "aws-custom-route-controller-leader-election" /\
  LeaderElectionResourceLock options = "leases" /\
  LeaderElectionNamespace options = leaderElectionNamespace f /\
  (given "leader-election-namespace" args = false ->
   LeaderElectionNamespace options = "kube-system").
Proof.
  all_paths; intro H; pick H; inversion H; subst.
  all: cbn [managerOptions LeaderElection LeaderElectionID
            LeaderElectionResourceLock LeaderElectionNamespace].
  all: split; [ reflexivity | ].
  all: split; [ intro G; rewrite leaderElection_not_given by exact G;
                reflexivity | ].
  all: split; [ intro G; apply leaderElection_true in G as [G | G];
                [ discriminate G | exact G ] | ].
  all: do 3 (split; [ reflexivity | ]).
  all: intro G; rewrite leaderElectionNamespace_not_given by exact G;
       reflexivity.
Qed.

(** C10. Every fatal path of the startup ends the process with exit
    status 1 after a log record.  On any command line: when pflag reads
    it to its end and a required flag is left empty, the process exits
    with status 1 right after the record of the first such flag and the
    usage message; a call that returned an error is followed at once by
    the record of that error and by exit status 1; an error record is
    always the last event and is followed by exit status 1; the usage
    message of [main] comes right after the record of a missing required
    flag.  Every exit on a command line read to its end has status 1 and
    follows a log record; the other exits are those of [pflag.Parse]
    itself (status 2 on a refused argument, 0 on a request for help),
    before any of these paths is entered. *)
Theorem C10_fatal_paths_exit_with_status_1 (Version : string)
    (cmd : list Argument) :
  let r := main Version cmd boot in
  (forall args name,
     accepted cmd = Some args ->
     firstMissing (parseFlags defaults args) = Some name ->
     snd r = Exited 1%Z /\
     exists before,
       events (fst r) =
       before ++ [EvInfo log (requiredMessage name) []; EvUsage]) /\
  (forall ev x, In ev (events (fst r)) -> failure ev = Some x ->
     snd r = Exited 1%Z /\
     exists msg kvs, In msg fatalMessages /\
     exists before, events (fst r) = before ++ [ev; EvError log x msg kvs]) /\
  (forall l e msg kvs, In (EvError l e msg kvs) (events (fst r)) ->
     snd r = Exited 1%Z /\ l = log /\ In msg fatalMessages /\
     exists before, events (fst r) = before ++ [EvError l e msg kvs]) /\
  (forall args, accepted cmd = Some args -> In EvUsage (events (fst r)) ->
     snd r = Exited 1%Z /\
     exists name, In (name, "") (requiredFlags (parseFlags defaults args)) /\
     exists before,
       events (fst r) =
       before ++ [EvInfo log (requiredMessage name) []; EvUsage]) /\
  (forall code, snd r = Exited code ->
     match accepted cmd with
     | Some _ => code = 1%Z /\ loggedBeforeExit (events (fst r)) = true
     | None =>
         (code = 2%Z /\
          exists message,
            events (fst r) =
            preludeOf Version cmd ++ [EvParseError message; EvUsage]) \/
         (code = 0%Z /\
          events (fst r) = preludeOf Version cmd ++ [EvUsage])
     end).
Proof.
  intro r. subst r. by_command_line cmd settings.
  - (* the command line is read to its end *)
    split; [ | split; [ | split; [ | split ] ] ].
    + intros args name E. injection E as <-.
      unfold firstMissing, requiredFlags. cbn [find snd].
      all_paths; cbn [option_map fst]; intro H;
        first [ injection H as <- | discriminate H ].
      all: split; [ reflexivity | ends_with ].
    + all_paths.
      all: intros ? ? Hin Hf; pick Hin; subst; cbn [failure] in Hf;
        try discriminate Hf; use_calls Hf; try discriminate Hf;
        inversion Hf; subst;
        (split; [ reflexivity | ]);
        do 2 eexists; (split; [ | ends_with ]);
        unfold fatalMessages; cbn [In]; tauto.
    + all_paths.
      all: intros ? ? ? ? H; pick H; inversion H; subst;
        (split; [ reflexivity | ]);
        (split; [ reflexivity | ]);
        (split; [ unfold fatalMessages; cbn [In]; tauto | ends_with ]).
    + intros args E. injection E as <-.
      all_paths.
      all: intro H; pick H;
        (split; [ reflexivity | ]);
        eexists; (split; [ | ends_with ]);
        unfold requiredFlags; cbn [In];
        match goal with E : _ = "" |- _ => rewrite E end; tauto.
    + all_paths.
      all: intros code H; first [ discriminate H | inversion H ];
        split; reflexivity.
  - (* pflag refuses an argument *)
    split; [ | split; [ | split; [ | split ] ] ].
    + intros ? ? E. discriminate E.
    + intros ? ? Hin Hf. pick Hin; subst; discriminate Hf.
    + intros ? ? ? ? H. pick H.
    + intros ? E. discriminate E.
    + intros code E. injection E as <-. left.
      split; [ reflexivity | eexists; reflexivity ].
  - (* pflag is asked for help *)
    split; [ | split; [ | split; [ | split ] ] ].
    + intros ? ? E. discriminate E.
    + intros ? ? Hin Hf. pick Hin; subst; discriminate Hf.
    + intros ? ? ? ? H. pick H.
    + intros ? E. discriminate E.
    + intros code E. injection E as <-. right.
      split; reflexivity.
Qed.

End Claims.

(** ** Executions on concrete command lines *)

Example requiredMessage_namespace :
  requiredMessage "namespace" = "'--namespace' is required".
Proof. reflexivity. Qed.

Example Split_examples :
  Split "100.96.0.0/11" comma = ["100.96.0.0/11"] /\
  Split "10.0.0.0/16,fd00::/64" comma = ["10.0.0.0/16"; "fd00::/64"] /\
  Split "a,,b," comma = ["a"; ""; "b"; ""] /\
  Split "" comma = [""].
Proof. repeat split; reflexivity. Qed.

Example itoa_examples :
  itoa 8081 = "8081" /\ itoa 0 = "0" /\ itoa (-1) = "-1".
Proof. repeat split; reflexivity. Qed.

(** With every call succeeding, [main] returns. *)
Example run_returns :
  snd (@run (Demo.world 0) "v0.1.0" Demo.commandLine) = Returned tt.
Proof. reflexivity. Qed.

(** Each of the ten calls that can fail leads to its own error record and
    to exit status 1. *)
Example run_fatal_paths :
  map Demo.fatalRun (seq 1 10) =
  [ (Exited 1%Z, Some "could not use target kubeconfig");
    (Exited 1%Z, Some "could not create manager");
    (Exited 1%Z, Some "could not create controller");
    (Exited 1%Z, Some "could not add ready checker");
    (Exited 1%Z, Some "could not add healthz checker");
    (Exited 1%Z, Some "could not load AWS credentials");
    (Exited 1%Z, Some "could not create AWS EC2 interface");
    (Exited 1%Z, Some "could not parse IPv4 address from pod-network-cidr");
    (Exited 1%Z, Some "could not create AWS custom routes updater");
    (Exited 1%Z, Some "could not start manager") ].
Proof. reflexivity. Qed.

Example run_trailing_comma :
  let r := @run (Demo.world 0) "v0.1.0" Demo.trailingComma in
  snd r = Exited 1%Z /\
  @lastErrorMessage (Demo.world 0) (events (fst r)) =
    Some "could not parse IPv4 address from pod-network-cidr".
Proof. split; reflexivity. Qed.

(** An empty secret name is reported as a missing flag. *)
Example run_empty_secret :
  let r := @run (Demo.world 0) "v0.1.0" Demo.emptySecret in
  snd r = Exited 1%Z /\
  In (EvInfo log "'--secret-name' is required" []) (events (fst r)).
Proof. split; [ reflexivity | cbn; tauto ]. Qed.

(** With [--log-level=debug --log-format=text] the cells hold "debug"
    and "text" after parsing, and the logger installed is the info
    logger in JSON format. *)
Example run_debug_text :
  let r := @run (Demo.world 0) "v0.1.0" Demo.debugText in
  logLevel (flagStore (fst r)) = "debug" /\
  logFormat (flagStore (fst r)) = "text" /\
  @installedLoggers (Demo.world 0) (events (fst r)) =
    [ {| zapLevel := "info"; zapFormat := "json" |} ].
Proof. repeat split; reflexivity. Qed.

(** With leader election asked for, the manager is made with it. *)
Example run_elected :
  let r := @run (Demo.world 0) "v0.1.0" Demo.elected in
  exists config options,
    In (@EvManagerNew (Demo.world 0) config options) (events (fst r)) /\
    LeaderElection options = true /\
    LeaderElectionNamespace options = "garden".
Proof.
  do 2 eexists. split; [ cbn; do 5 right; left; reflexivity | ].
  split; reflexivity.
Qed.

(** A flag that is not declared: pflag ends the process with status 2
    after the error and the usage message, whatever follows. *)
Example run_unknown_flag :
  @main (Demo.world 0) "v0.1.0" Lines.unknownFlag boot =
  ({| flagStore := parseFlags (@defaults (Demo.world 0)) Demo.commandLine;
      events := @preludeOf (Demo.world 0) "v0.1.0" Lines.unknownFlag ++
                [EvParseError "unknown flag: --verbose"; EvUsage] |},
   Exited 2%Z).
Proof. reflexivity. Qed.

(** A port given on the command line is the port of the bind address. *)
Example run_metrics_port :
  BindAddress
    (Metrics
       (managerOptions
          (parseFlags (@defaults (Demo.world 0))
             (Demo.commandLine ++ [metrics_port Lines.port9090]))))
  = ":9090".
Proof. reflexivity. Qed.

(** A request for help: status 0 after the usage message. *)
Example run_help :
  snd (@main (Demo.world 0) "v0.1.0" Lines.help boot) = Exited 0%Z.
Proof. reflexivity. Qed.

(** Work on another context than the signal handler's would go on after
    the shutdown signal. *)
Example background_work_survives :
  @mayContinue Shutdown.world Shutdown.afterSignal (SyncWork, "background")
  = true /\
  @mayContinue Shutdown.world Shutdown.afterSignal (SyncWork, "signal")
  = false.
Proof. split; reflexivity. Qed.

(** ** The theorems at concrete executions *)

(** No flag given: namespace is the first one found missing. *)
Lemma C1_witness :
  clusterName (parseFlags (@defaults (Demo.world 0)) []) = "" /\
  exists name,
    In (name, "") (requiredFlags (parseFlags (@defaults (Demo.world 0)) [])) /\
    @run (Demo.world 0) "v0.1.0" [] =
      ({| flagStore := parseFlags (@defaults (Demo.world 0)) [];
          events := @prelude (Demo.world 0) "v0.1.0" [] ++
                    [EvInfo log (requiredMessage name) []; EvUsage] |},
       Exited 1%Z) /\
    forallb (fun e => negb (reachesOutside e))
            (events (fst (@run (Demo.world 0) "v0.1.0" []))) = true.
Proof.
  split; [ reflexivity | ].
  apply (@C1_missing_required_flag_exits (Demo.world 0) "v0.1.0" []).
  left. reflexivity.
Defined.

(** A trailing comma makes an empty CIDR, which the parser refuses. *)
Lemma C3_witness :
  @GetIPv4CIDR (Demo.world 0)
    (Split (podNetworkCidr
              (parseFlags (@defaults (Demo.world 0)) Demo.trailingComma))
       comma) = Err "invalid CIDR address" /\
  snd (@run (Demo.world 0) "v0.1.0" Demo.trailingComma) = Exited 1%Z /\
  existsb isStartUpdater
    (events (fst (@run (Demo.world 0) "v0.1.0" Demo.trailingComma))) = false.
Proof.
  split; [ reflexivity | ].
  destruct (@C3_unparsable_pod_cidr_is_fatal (Demo.world 0) "v0.1.0"
              Demo.trailingComma "invalid CIDR address" eq_refl)
    as (Hexit & _ & Hupdater & _).
  split; [ exact Hexit | exact Hupdater ].
Defined.

Lemma updater_is_started_once_with_the_period_flags_witness :
  In (@EvStartUpdater (Demo.world 0) log tt
        (Update ("shoot--foo--bar", ["100.96.0.0/11"]))
        5000000000%Z 3600000000000%Z 300000000000%Z)
     (events (fst (@run (Demo.world 0) "v0.1.0" Demo.commandLine))) /\
  length (filter isStartUpdater
            (events (fst (@run (Demo.world 0) "v0.1.0" Demo.commandLine))))
  = 1.
Proof.
  assert (H : In (@EvStartUpdater (Demo.world 0) log tt
                    (Update ("shoot--foo--bar", ["100.96.0.0/11"]))
                    5000000000%Z 3600000000000%Z 300000000000%Z)
                 (events (fst (@run (Demo.world 0) "v0.1.0"
                                 Demo.commandLine))))
    by (cbn; tauto).
  split; [ exact H | ].
  destruct (@updater_is_started_once_with_the_period_flags (Demo.world 0)
              "v0.1.0" Demo.commandLine _ _ _ _ _ _ H)
    as (_ & _ & _ & _ & _ & _ & _ & Honce).
  exact Honce.
Defined.

(** With "signal" the context of the signal handler: after the signal
    neither the synchronization nor the manager goes on, before it both
    do. *)
Lemma C5_witness :
  In (@EvStart Shutdown.world
        (managerOptions
           (parseFlags (@defaults Shutdown.world) Demo.commandLine))
        "signal")
     (events (fst (@run Shutdown.world "v0.1.0" Demo.commandLine))) /\
  forallb (fun w => negb (@mayContinue Shutdown.world Shutdown.afterSignal w))
    (startedWork (events (fst (@run Shutdown.world "v0.1.0"
                                 Demo.commandLine)))) = true /\
  forallb (@mayContinue Shutdown.world Shutdown.beforeSignal)
    (startedWork (events (fst (@run Shutdown.world "v0.1.0"
                                 Demo.commandLine)))) = true.
Proof.
  assert (H : In (@EvStart Shutdown.world
                    (managerOptions
                       (parseFlags (@defaults Shutdown.world)
                          Demo.commandLine))
                    "signal")
                 (events (fst (@run Shutdown.world "v0.1.0"
                                 Demo.commandLine))))
    by (cbn; tauto).
  split; [ exact H | ].
  destruct (@C5_updater_and_manager_share_the_signal_context Shutdown.world
              "v0.1.0" Demo.commandLine _ _ H)
    as (_ & _ & _ & _ & _ & Hsignal).
  split.
  - exact (proj1 (Hsignal Shutdown.afterSignal) eq_refl).
  - exact (proj2 (Hsignal Shutdown.beforeSignal) eq_refl).
Defined.

Lemma C6_witness :
  In (@EvStart (Demo.world 0) (managerOptions
        (parseFlags (@defaults (Demo.world 0)) Demo.commandLine)) tt)
     (events (fst (@run (Demo.world 0) "v0.1.0" Demo.commandLine))) /\
  HealthProbeBindAddress
    (managerOptions (parseFlags (@defaults (Demo.world 0)) Demo.commandLine))
  = ":8081".
Proof.
  assert (H : In (@EvStart (Demo.world 0) (managerOptions
                    (parseFlags (@defaults (Demo.world 0)) Demo.commandLine))
                    tt)
                 (events (fst (@run (Demo.world 0) "v0.1.0"
                                 Demo.commandLine))))
    by (cbn; tauto).
  split; [ exact H | ].
  destruct (@C6_probes_are_driven_by_the_node_reconciler (Demo.world 0)
              "v0.1.0" Demo.commandLine _ _ H)
    as (_ & _ & _ & Hport & _).
  apply Hport. reflexivity.
Defined.

Lemma C7_witness :
  In (@EvGetIPv4CIDR (Demo.world 0) ["100.96.0.0/11"])
     (events (fst (@run (Demo.world 0) "v0.1.0" Demo.commandLine))) /\
  ["100.96.0.0/11"] =
  Split (podNetworkCidr
           (parseFlags (@defaults (Demo.world 0)) Demo.commandLine)) comma.
Proof.
  assert (H : In (@EvGetIPv4CIDR (Demo.world 0) ["100.96.0.0/11"])
                 (events (fst (@run (Demo.world 0) "v0.1.0"
                                 Demo.commandLine))))
    by (cbn; tauto).
  split; [ exact H | ].
  destruct (@C7_pod_network_cidr_is_split_at_commas (Demo.world 0) "v0.1.0"
              Demo.commandLine _ H)
    as (Hsplit & _).
  exact Hsplit.
Defined.

Lemma C8_witness :
  ~ In (secret_name "") Demo.commandLine /\
  secretName (parseFlags (@defaults (Demo.world 0)) Demo.commandLine) =
    "cloudprovider" /\
  ~ In (EvInfo log (requiredMessage "secret-name") [])
       (events (fst (@run (Demo.world 0) "v0.1.0" Demo.commandLine))).
Proof.
  assert (H : ~ In (secret_name "") Demo.commandLine)
    by (cbn; intuition discriminate).
  split; [ exact H | ].
  destruct (@C8_secret_name_is_missing_only_when_given_empty (Demo.world 0)
              "v0.1.0" Demo.commandLine H)
    as (_ & _ & Hdefault & Hnever).
  split; [ apply Hdefault; reflexivity | exact Hnever ].
Defined.

Lemma C9_witness :
  In (@EvManagerNew (Demo.world 0) "/etc/target/kubeconfig"
        (managerOptions
           (parseFlags (@defaults (Demo.world 0)) Demo.commandLine)))
     (events (fst (@run (Demo.world 0) "v0.1.0" Demo.commandLine))) /\
  LeaderElection
    (managerOptions (parseFlags (@defaults (Demo.world 0)) Demo.commandLine))
  = false.
Proof.
  assert (H : In (@EvManagerNew (Demo.world 0) "/etc/target/kubeconfig"
                    (managerOptions
                       (parseFlags (@defaults (Demo.world 0))
                          Demo.commandLine)))
                 (events (fst (@run (Demo.world 0) "v0.1.0"
                                 Demo.commandLine))))
    by (cbn; tauto).
  split; [ exact H | ].
  destruct (@C9_leader_election_is_off_by_default (Demo.world 0) "v0.1.0"
              Demo.commandLine _ _ H) as (_ & Hoff & _).
  apply Hoff. reflexivity.
Defined.

(** No flag given: the namespace is missing, exit status 1 after its
    record.  The manager cannot be made: exit status 1 after the error
    record. *)
Lemma C10_witness :
  accepted [] = Some [] /\
  firstMissing (parseFlags (@defaults (Demo.world 0)) []) = Some "namespace" /\
  snd (@main (Demo.world 0) "v0.1.0" [] boot) = Exited 1%Z /\
  In (@EvManagerNew (Demo.world 2) "/etc/target/kubeconfig"
        (managerOptions
           (parseFlags (@defaults (Demo.world 2)) Demo.commandLine)))
     (events (fst (@main (Demo.world 2) "v0.1.0"
                     (map Flag Demo.commandLine) boot))) /\
  snd (@main (Demo.world 2) "v0.1.0" (map Flag Demo.commandLine) boot) =
    Exited 1%Z.
Proof.
  assert (Hmissing :
    firstMissing (parseFlags (@defaults (Demo.world 0)) []) = Some "namespace")
    by reflexivity.
  assert (Hcall :
    In (@EvManagerNew (Demo.world 2) "/etc/target/kubeconfig"
          (managerOptions
             (parseFlags (@defaults (Demo.world 2)) Demo.commandLine)))
       (events (fst (@main (Demo.world 2) "v0.1.0"
                       (map Flag Demo.commandLine) boot))))
    by (cbn; tauto).
  split; [ reflexivity | ].
  split; [ exact Hmissing | ].
  split.
  - destruct (@C10_fatal_paths_exit_with_status_1 (Demo.world 0) "v0.1.0" [])
      as (Hflag & _).
    destruct (Hflag [] "namespace" eq_refl Hmissing) as (Hexit & _).
    exact Hexit.
  - split; [ exact Hcall | ].
    destruct (@C10_fatal_paths_exit_with_status_1 (Demo.world 2) "v0.1.0"
                (map Flag Demo.commandLine)) as (_ & Hfailed & _).
    destruct (Hfailed _ "no API server" Hcall eq_refl) as (Hexit & _).
    exact Hexit.
Defined.

(** ** Further properties of [main] and [checkRequiredFlag] *)

(** *** Strings *)

Lemma append_length (a b : string) :
  String.length (a ++ b) = (String.length a + String.length b)%nat.
Proof. induction a as [| c a IH]; simpl; [ | rewrite IH ]; reflexivity. Qed.

(** A common suffix can be cancelled. *)
Lemma append_cancel_r (a b suffix : string) :
  (a ++ suffix)%string = (b ++ suffix)%string -> a = b.
Proof.
  revert b. induction a as [| c a IH]; intros [| d b] H.
  - reflexivity.
  - apply (f_equal String.length) in H. simpl in H.
    rewrite append_length in H. lia.
  - apply (f_equal String.length) in H. simpl in H.
    rewrite append_length in H. lia.
  - simpl in H. injection H as -> H. f_equal. apply IH, H.
Qed.

(** A string without the separator is its own only piece. *)
Lemma Split_without_separator (s : string) (sep : ascii) :
  Contains s sep = false -> Split s sep = [s].
Proof.
  induction s as [| c rest IH]; simpl; [ reflexivity | ].
  intro H. apply orb_false_elim in H as [Hc Hrest].
  rewrite Hc, IH by exact Hrest. reflexivity.
Qed.

(** Splitting what was joined gives the pieces back. *)
Lemma Split_concat (sep : ascii) (pieces : list string) :
  pieces <> [] ->
  Forall (fun piece => Contains piece sep = false) pieces ->
  Split (String.concat (String sep "") pieces) sep = pieces.
Proof.
  induction pieces as [| piece pieces IH]; intros Hnil Hall;
    [ contradiction | ].
  inversion Hall as [| ? ? Hpiece Hpieces]; subst.
  destruct pieces as [| next pieces].
  - simpl. apply Split_without_separator, Hpiece.
  - assert (Hrest : Split (String.concat (String sep "") (next :: pieces))
                      sep = next :: pieces)
      by (apply IH; [ discriminate | exact Hpieces ]).
    change (String.concat (String sep "") (piece :: next :: pieces))
      with (piece ++ String sep (String.concat (String sep "")
                                   (next :: pieces)))%string.
    remember (String.concat (String sep "") (next :: pieces)) as joined.
    clear - Hpiece Hrest.
    induction piece as [| c piece IHp]; cbn [append Split].
    + rewrite Ascii.eqb_refl, Hrest. reflexivity.
    + cbn [Contains] in Hpiece.
      apply orb_false_elim in Hpiece as [Hc Hpiece].
      rewrite Hc, IHp by exact Hpiece. reflexivity.
Qed.

(** Only the empty string splits into one empty piece. *)
Lemma Split_one_empty (s : string) (sep : ascii) :
  Split s sep = [""] -> s = "".
Proof.
  intro H. rewrite <- (concat_Split s sep), H. reflexivity.
Qed.

(** *** Flags that are not given keep their defaults *)

Lemma namespace_not_given :
  forall args f, given "namespace" args = false ->
                 namespace (parseFlags f args) = namespace f.
Proof. only_written_by. Qed.

Lemma region_not_given :
  forall args f, given "region" args = false ->
                 region (parseFlags f args) = region f.
Proof. only_written_by. Qed.

Lemma clusterName_not_given :
  forall args f, given "cluster-name" args = false ->
                 clusterName (parseFlags f args) = clusterName f.
Proof. only_written_by. Qed.

Lemma podNetworkCidr_not_given :
  forall args f, given "pod-network-cidr" args = false ->
                 podNetworkCidr (parseFlags f args) = podNetworkCidr f.
Proof. only_written_by. Qed.

Lemma targetKubeconfig_not_given :
  forall args f, given "target-kubeconfig" args = false ->
                 targetKubeconfig (parseFlags f args) = targetKubeconfig f.
Proof. only_written_by. Qed.

Lemma controlKubeconfig_not_given :
  forall args f, given "control-kubeconfig" args = false ->
                 controlKubeconfig (parseFlags f args) = controlKubeconfig f.
Proof. only_written_by. Qed.

Section Further.

Context {collab : Collaborators}.

(** The record of a missing flag names the flag: two flags never get the
    same message. *)
Theorem requiredMessage_names_the_flag (a b : string) :
  requiredMessage a = requiredMessage b -> a = b.
Proof.
  unfold requiredMessage. simpl. intro H. injection H as H.
  apply append_cancel_r in H. exact H.
Qed.

(** When several required flags are empty, the one reported is the first
    in the order of the checks (namespace, secret-name, region,
    cluster-name, pod-network-cidr, target-kubeconfig) and it is the only
    one reported: the execution is the prelude, the record of that flag,
    the usage message and exit status 1. *)
Theorem first_missing_flag_is_the_one_reported (Version : string)
    (args : list Setting) (name : string) :
  firstMissing (parseFlags defaults args) = Some name ->
  run Version args =
    ({| flagStore := parseFlags defaults args;
        events := prelude Version args ++
                  [EvInfo log (requiredMessage name) []; EvUsage] |},
     Exited 1%Z).
Proof.
  unfold firstMissing, requiredFlags. cbn [find snd].
  all_paths.
  all: cbn [option_map fst]; intro H;
    first [ injection H as <-; reflexivity | discriminate H ].
Qed.

(** When no required flag is empty, no flag is reported missing and the
    first call outside the process, building the configuration from the
    target kubeconfig, is made. *)
Theorem no_missing_flag_reaches_the_first_call (Version : string)
    (args : list Setting) :
  firstMissing (parseFlags defaults args) = None ->
  ~ In EvUsage (events (fst (run Version args))) /\
  exists rest,
    events (fst (run Version args)) =
    prelude Version args ++
    EvBuildConfigFromFlags "" (targetKubeconfig (parseFlags defaults args))
    :: rest.
Proof.
  unfold firstMissing, requiredFlags. cbn [find snd].
  all_paths.
  all: cbn [option_map fst]; intro H; try discriminate H.
  all: split; [ intro G; pick G | eexists; reflexivity ].
Qed.

(** The five flags declared with an empty default must be given: on a
    command line that lacks one of them, no call outside the process is
    made and the process ends after the usage message, with status 1
    when pflag reads the command line to its end, and inside
    [pflag.Parse] with status 2 or 0 when it does not. *)
Theorem flags_without_default_must_be_given (Version : string)
    (cmd : list Argument) (name : string) :
  In name flagsWithoutDefault ->
  givenIn name cmd = false ->
  let r := main Version cmd boot in
  In EvUsage (events (fst r)) /\
  forallb (fun e => negb (reachesOutside e)) (events (fst r)) = true /\
  exists code,
    snd r = Exited code /\
    match accepted cmd with
    | Some _ => code = 1%Z
    | None => code = 2%Z \/ code = 0%Z
    end.
Proof.
  intros Hname Hgiven r. subst r. by_command_line cmd args.
  - rewrite givenIn_settings in Hgiven.
    assert (Hcell :
      namespace (parseFlags defaults args) = "" \/
      region (parseFlags defaults args) = "" \/
      clusterName (parseFlags defaults args) = "" \/
      podNetworkCidr (parseFlags defaults args) = "" \/
      targetKubeconfig (parseFlags defaults args) = "").
    { unfold flagsWithoutDefault in Hname. cbn [In] in Hname.
      destruct Hname as [<- | [<- | [<- | [<- | [<- | []]]]]].
      - left. rewrite namespace_not_given by exact Hgiven. reflexivity.
      - right. left. rewrite region_not_given by exact Hgiven. reflexivity.
      - do 2 right. left.
        rewrite clusterName_not_given by exact Hgiven. reflexivity.
      - do 3 right. left.
        rewrite podNetworkCidr_not_given by exact Hgiven. reflexivity.
      - do 4 right.
        rewrite targetKubeconfig_not_given by exact Hgiven. reflexivity. }
    clear Hname Hgiven. revert Hcell. all_paths; intro Hcell.
    all: try (exfalso; tauto).
    all: split; [ cbn [In]; tauto | ].
    all: split; [ reflexivity | eexists; split; reflexivity ].
  - split; [ cbn [In]; tauto | ].
    split; [ reflexivity | ].
    eexists. split; [ reflexivity | left; reflexivity ].
  - split; [ cbn [In]; tauto | ].
    split; [ reflexivity | ].
    eexists. split; [ reflexivity | right; reflexivity ].
Qed.

(** [main] returns, so that the process ends with status 0, only when no
    required flag is empty and each call has succeeded, [mgr.Start]
    included; the execution is then the prelude followed by the thirteen
    calls of lines 75 to 140, each made with the values returned by the
    calls before it. *)
Theorem main_returns_only_after_every_call_succeeded (Version : string)
    (args : list Setting) :
  snd (run Version args) = Returned tt ->
  let f := parseFlags defaults args in
  firstMissing f = None /\
  exists config mgr credentials ec2 net routes,
    everyCallSucceeds f config mgr credentials ec2 net routes /\
    events (fst (run Version args)) =
    prelude Version args ++
    startupCalls f config mgr credentials ec2 net routes.
Proof.
  all_paths; intro H; try discriminate H.
  split.
  - unfold firstMissing, requiredFlags. cbn [find snd].
    repeat match goal with
           | Hne : ?v <> "" |- context [String.eqb ?v ""] =>
               rewrite (proj2 (String.eqb_neq v "") Hne)
           end.
    reflexivity.
  - do 6 eexists. split; [ | reflexivity ].
    unfold everyCallSucceeds, reconcilerOf.
    repeat split; eassumption.
Qed.

(** Conversely, when no required flag is empty and each call succeeds,
    [main] returns after exactly these calls. *)
Theorem main_returns_when_every_call_succeeds (Version : string)
    (args : list Setting) (config : RestConfig) (mgr : Manager)
    (credentials : Credentials) (ec2 : EC2Routes) (net : IPNet)
    (routes : CustomRoutes) :
  firstMissing (parseFlags defaults args) = None ->
  everyCallSucceeds (parseFlags defaults args) config mgr credentials ec2
    net routes ->
  run Version args =
    ({| flagStore := parseFlags defaults args;
        events := prelude Version args ++
                  startupCalls (parseFlags defaults args) config mgr
                    credentials ec2 net routes |},
     Returned tt).
Proof.
  unfold firstMissing, requiredFlags, everyCallSucceeds, startupCalls,
    reconcilerOf.
  cbn [find snd].
  all_paths; cbn [option_map fst]; intros Hmissing Hcalls;
    try discriminate Hmissing;
    decompose [and] Hcalls; clear Hcalls; try congruence.
  unfold prelude, preludeOf. cbn [app]. repeat f_equal; congruence.
Qed.

(** The calls that leave the package are made in the order of the source,
    each at most once and none skipped: an execution makes the first [k]
    of the thirteen calls, and all thirteen exactly when the manager is
    started. *)
Theorem calls_are_made_in_source_order (Version : string)
    (args : list Setting) :
  exists k,
    (k <= 13)%nat /\
    callNumbers (events (fst (run Version args))) = seq 1 k /\
    (k = 13%nat <->
     exists m ctx, In (EvStart m ctx) (events (fst (run Version args)))).
Proof.
  all_paths.
  all: match goal with
       | |- exists k, _ /\ callNumbers ?l = _ /\ _ =>
           let n := eval compute in (length (callNumbers l)) in
           exists n
       end.
  all: split; [ lia | split; [ reflexivity | ] ].
  all: split;
    [ intro E;
      first [ discriminate E
            | do 2 eexists; cbn [In];
              repeat (first [ left; reflexivity | right ]) ]
    | intros (m & ctx & G); pick G; reflexivity ].
Qed.

(** The manager is made for the target cluster: its configuration is the
    one built from the target kubeconfig with an empty master URL, the
    only configuration [main] builds, and its options are those filled
    from the flags. *)
Theorem manager_is_made_for_the_target_cluster (Version : string)
    (args : list Setting) (config : RestConfig) (options : Options) :
  In (EvManagerNew config options) (events (fst (run Version args))) ->
  let f := parseFlags defaults args in
  BuildConfigFromFlags "" (targetKubeconfig f) = Ok config /\
  options = managerOptions f /\
  forall url path,
    In (EvBuildConfigFromFlags url path)
       (events (fst (run Version args))) ->
    url = "" /\ path = targetKubeconfig f.
Proof.
  all_paths; intro H; pick H; inversion H; subst.
  all: split; [ assumption | ].
  all: split; [ reflexivity | ].
  all: intros ? ? G; pick G; inversion G; split; reflexivity.
Qed.

(** The credentials are loaded once the manager, its controller and its
    two checks are in place, from the control plane: with the cells of
    control-kubeconfig, namespace and secret-name, that is with the
    in-cluster configuration and the secret "cloudprovider" when these
    two flags are not given. *)
Theorem credentials_are_loaded_from_the_control_plane (Version : string)
    (args : list Setting) (kubeconfig ns secret : string) :
  In (EvLoadCredentials kubeconfig ns secret)
     (events (fst (run Version args))) ->
  let f := parseFlags defaults args in
  kubeconfig = controlKubeconfig f /\
  ns = namespace f /\
  secret = secretName f /\
  (given "control-kubeconfig" args = false -> kubeconfig = InClusterConfig) /\
  (given "secret-name" args = false -> secret = "cloudprovider") /\
  exists config mgr,
    manager_New config (managerOptions f) = Ok mgr /\
    Complete mgr (reconcilerOf mgr) = None /\
    AddReadyzCheck mgr "node reconciler" (ReadyChecker (reconcilerOf mgr)) =
      None /\
    AddHealthzCheck mgr "node reconciler"
      (HealthzChecker (reconcilerOf mgr)) = None.
Proof.
  all_paths; intro H; pick H; inversion H; subst.
  all: do 3 (split; [ reflexivity | ]).
  all: split; [ intro G; rewrite controlKubeconfig_not_given by exact G;
                reflexivity | ].
  all: split; [ intro G; rewrite secretName_not_given by exact G;
                reflexivity | ].
  all: do 2 eexists; unfold reconcilerOf; repeat split; eassumption.
Qed.

(** The updater is built with the logger named "updater" under the
    component's logger, for the cluster of the cluster-name flag, on the
    EC2 client made in the region of the region flag from the
    credentials that were loaded. *)
Theorem updater_is_built_on_the_loaded_credentials (Version : string)
    (args : list Setting) (l : Logger) (ec2 : EC2Routes) (cluster : string)
    (net : IPNet) :
  In (EvNewCustomRoutes l ec2 cluster net)
     (events (fst (run Version args))) ->
  let f := parseFlags defaults args in
  loggerNames l = [componentName; "updater"] /\
  cluster = clusterName f /\
  exists credentials,
    LoadCredentials (controlKubeconfig f) (namespace f) (secretName f) =
      Ok credentials /\
    NewAWSEC2Routes credentials (region f) = Ok ec2 /\
    forall c reg,
      In (EvNewAWSEC2Routes c reg) (events (fst (run Version args))) ->
      c = credentials /\ reg = region f.
Proof.
  all_paths; intro H; pick H; inversion H; subst.
  all: do 2 (split; [ reflexivity | ]).
  all: eexists; split; [ eassumption | ]; split; [ eassumption | ].
  all: intros ? ? G; pick G; inversion G; split; reflexivity.
Qed.

(** The updater is started on the reconciler that was registered with
    the manager as its controller and whose two checkers were registered
    as the readiness and health checks, all three without an error. *)
Theorem updater_is_started_on_the_registered_reconciler (Version : string)
    (args : list Setting) (r : NodeReconciler) (ctx : Context)
    (fn : SyncFunc CustomRoutes) (tick sync delay : Duration) :
  In (EvStartUpdater r ctx fn tick sync delay)
     (events (fst (run Version args))) ->
  let tr := events (fst (run Version args)) in
  exists mgr,
    r = reconcilerOf mgr /\
    In (EvNewNodeReconciler mgr log componentName) tr /\
    In (EvComplete mgr r) tr /\ Complete mgr r = None /\
    In (EvAddReadyzCheck mgr "node reconciler" (ReadyChecker r)) tr /\
    AddReadyzCheck mgr "node reconciler" (ReadyChecker r) = None /\
    In (EvAddHealthzCheck mgr "node reconciler" (HealthzChecker r)) tr /\
    AddHealthzCheck mgr "node reconciler" (HealthzChecker r) = None.
Proof.
  all_paths; intro H; pick H; inversion H; subst.
  all: eexists; unfold reconcilerOf.
  all: split; [ reflexivity | ].
  all: repeat split; first [ eassumption | cbn [In]; tauto ].
Qed.

(** An error record carries only the context [main] gives it: the path
    of the target kubeconfig when it cannot be used, the namespace and
    the name of the secret when the credentials cannot be loaded, and
    nothing for the other errors. *)
Theorem error_records_carry_only_their_context (Version : string)
    (args : list Setting) (l : Logger) (e : error) (msg : string)
    (kvs : list (string * string)) :
  In (EvError l e msg kvs) (events (fst (run Version args))) ->
  kvs = recordContext (parseFlags defaults args) msg.
Proof.
  all_paths; intro H; pick H; inversion H; subst; reflexivity.
Qed.


(** A value of pod-network-cidr written as ranges joined by commas
    reaches the parser as exactly these ranges, in their order. *)
Theorem joined_ranges_reach_the_parser_as_written (Version : string)
    (args : list Setting) (cidrs pieces : list string) :
  In (EvGetIPv4CIDR cidrs) (events (fst (run Version args))) ->
  pieces <> [] ->
  Forall (fun piece => Contains piece comma = false) pieces ->
  podNetworkCidr (parseFlags defaults args) = String.concat "," pieces ->
  cidrs = pieces.
Proof.
  all_paths; intros H Hnil Hpieces Hvalue; pick H; inversion H; subst.
  all: rewrite Hvalue; apply Split_concat; assumption.
Qed.

End Further.

(** *** Bind addresses *)

(** [fmt.Sprintf("%d", n)] tells the integers apart. *)
Lemma itoa_inj (a b : Z) : itoa a = itoa b -> a = b.
Proof.
  unfold itoa. intro H.
  assert (Hnonnil : forall z, Z.to_int z <> Decimal.Pos Decimal.Nil /\
                              Z.to_int z <> Decimal.Neg Decimal.Nil).
  { intros [| p | p]; simpl; split; try discriminate;
      intro E; injection E as E;
      exact (DecimalPos.Unsigned.to_uint_nonnil p E). }
  apply (f_equal NilZero.int_of_string) in H.
  rewrite !NilZero.isi in H by apply Hnonnil.
  injection H as H. apply DecimalZ.to_int_inj, H.
Qed.

(** The health probes and the metrics are given the same bind address
    exactly when the two ports are equal. *)
Theorem probe_and_metrics_addresses_clash_only_on_equal_ports (f : Flags) :
  HealthProbeBindAddress (managerOptions f) =
  BindAddress (Metrics (managerOptions f)) <->
  healthProbePort f = metricsPort f.
Proof.
  cbn [managerOptions HealthProbeBindAddress Metrics BindAddress]. split.
  - intro H. cbn [append] in H. injection H as H. apply itoa_inj, H.
  - intros ->. reflexivity.
Qed.

(** *** The further properties at concrete executions *)

Lemma requiredMessage_names_the_flag_witness :
  requiredMessage "region" = "'--region' is required" /\
  "region" = "region".
Proof.
  split; [ reflexivity | ].
  apply requiredMessage_names_the_flag. reflexivity.
Defined.

(** The namespace is given, the secret name is empty, region and cluster
    name are not given: the secret name is the one reported. *)
Lemma first_missing_flag_is_the_one_reported_witness :
  firstMissing (parseFlags (@defaults (Demo.world 0)) Cases.severalMissing)
  = Some "secret-name" /\
  snd (@run (Demo.world 0) "v0.1.0" Cases.severalMissing) = Exited 1%Z /\
  @lastErrorMessage (Demo.world 0)
    (events (fst (@run (Demo.world 0) "v0.1.0" Cases.severalMissing)))
  = None.
Proof.
  assert (H : firstMissing
                (parseFlags (@defaults (Demo.world 0)) Cases.severalMissing)
              = Some "secret-name") by reflexivity.
  split; [ exact H | ].
  rewrite (@first_missing_flag_is_the_one_reported (Demo.world 0) "v0.1.0"
             Cases.severalMissing "secret-name" H).
  split; reflexivity.
Defined.

Lemma no_missing_flag_reaches_the_first_call_witness :
  firstMissing (parseFlags (@defaults (Demo.world 0)) Demo.commandLine)
  = None /\
  ~ In EvUsage (events (fst (@run (Demo.world 0) "v0.1.0"
                               Demo.commandLine))).
Proof.
  assert (H : firstMissing
                (parseFlags (@defaults (Demo.world 0)) Demo.commandLine)
              = None) by reflexivity.
  split; [ exact H | ].
  destruct (@no_missing_flag_reaches_the_first_call (Demo.world 0) "v0.1.0"
              Demo.commandLine H) as (Husage & _).
  exact Husage.
Defined.

(** No region among the settings: exit status 1.  No namespace and a
    port pflag refuses: exit status 2. *)
Lemma flags_without_default_must_be_given_witness :
  In "region" flagsWithoutDefault /\
  givenIn "region" (map Flag Cases.noRegion) = false /\
  snd (@main (Demo.world 0) "v0.1.0" (map Flag Cases.noRegion) boot) =
    Exited 1%Z /\
  In "namespace" flagsWithoutDefault /\
  givenIn "namespace" Lines.badPort = false /\
  snd (@main (Demo.world 0) "v0.1.0" Lines.badPort boot) = Exited 2%Z.
Proof.
  assert (Hregion : In "region" flagsWithoutDefault)
    by (right; left; reflexivity).
  assert (Hnamespace : In "namespace" flagsWithoutDefault)
    by (left; reflexivity).
  split; [ exact Hregion | ].
  split; [ reflexivity | ].
  split.
  - destruct (@flags_without_default_must_be_given (Demo.world 0) "v0.1.0"
                (map Flag Cases.noRegion) "region" Hregion eq_refl)
      as (_ & _ & code & Hexit & Hcode).
    rewrite Hexit. cbn in Hcode. rewrite Hcode. reflexivity.
  - split; [ exact Hnamespace | ].
    split; [ reflexivity | ].
    destruct (@flags_without_default_must_be_given (Demo.world 0) "v0.1.0"
                Lines.badPort "namespace" Hnamespace eq_refl)
      as (_ & _ & code & Hexit & Hcode).
    rewrite Hexit. cbn in Hcode. destruct Hcode as [-> | ->].
    + reflexivity.
    + discriminate Hexit.
Defined.

Lemma main_returns_only_after_every_call_succeeded_witness :
  snd (@run (Demo.world 0) "v0.1.0" Demo.commandLine) = Returned tt /\
  firstMissing (parseFlags (@defaults (Demo.world 0)) Demo.commandLine)
  = None.
Proof.
  assert (H : snd (@run (Demo.world 0) "v0.1.0" Demo.commandLine)
              = Returned tt) by reflexivity.
  split; [ exact H | ].
  destruct (@main_returns_only_after_every_call_succeeded (Demo.world 0)
              "v0.1.0" Demo.commandLine H) as (Hmissing & _).
  exact Hmissing.
Defined.

Lemma main_returns_when_every_call_succeeds_witness :
  snd (@run (Demo.world 0) "v0.1.0" Demo.commandLine) = Returned tt.
Proof.
  rewrite (@main_returns_when_every_call_succeeds (Demo.world 0) "v0.1.0"
             Demo.commandLine "/etc/target/kubeconfig"
             (managerOptions
                (parseFlags (@defaults (Demo.world 0)) Demo.commandLine))
             ("shoot--foo--bar", "cloudprovider") "eu-west-1"
             ["100.96.0.0/11"] ("shoot--foo--bar", ["100.96.0.0/11"])).
  - reflexivity.
  - reflexivity.
  - unfold everyCallSucceeds. repeat split; reflexivity.
Defined.

(** Without a cluster the manager cannot be made: two calls. *)
Lemma calls_are_made_in_source_order_witness :
  callNumbers (events (fst (@run (Demo.world 2) "v0.1.0" Demo.commandLine)))
  = [1; 2]%nat.
Proof.
  destruct (@calls_are_made_in_source_order (Demo.world 2) "v0.1.0"
              Demo.commandLine) as (k & _ & Hcalls & _).
  rewrite Hcalls. destruct k as [| [| [| k]]]; try discriminate Hcalls.
  reflexivity.
Defined.

Lemma manager_is_made_for_the_target_cluster_witness :
  In (@EvManagerNew (Demo.world 0) "/etc/target/kubeconfig"
        (managerOptions
           (parseFlags (@defaults (Demo.world 0)) Demo.commandLine)))
     (events (fst (@run (Demo.world 0) "v0.1.0" Demo.commandLine))) /\
  @BuildConfigFromFlags (Demo.world 0) "" "/etc/target/kubeconfig"
  = Ok "/etc/target/kubeconfig".
Proof.
  assert (H : In (@EvManagerNew (Demo.world 0) "/etc/target/kubeconfig"
                    (managerOptions
                       (parseFlags (@defaults (Demo.world 0))
                          Demo.commandLine)))
                 (events (fst (@run (Demo.world 0) "v0.1.0"
                                 Demo.commandLine))))
    by (cbn; tauto).
  split; [ exact H | ].
  destruct (@manager_is_made_for_the_target_cluster (Demo.world 0) "v0.1.0"
              Demo.commandLine _ _ H) as (Hconfig & _).
  exact Hconfig.
Defined.

Lemma credentials_are_loaded_from_the_control_plane_witness :
  In (@EvLoadCredentials (Demo.world 0) "inClusterConfig" "shoot--foo--bar"
        "cloudprovider")
     (events (fst (@run (Demo.world 0) "v0.1.0" Demo.commandLine))) /\
  "inClusterConfig" = @InClusterConfig (Demo.world 0).
Proof.
  assert (H : In (@EvLoadCredentials (Demo.world 0) "inClusterConfig"
                    "shoot--foo--bar" "cloudprovider")
                 (events (fst (@run (Demo.world 0) "v0.1.0"
                                 Demo.commandLine))))
    by (cbn; tauto).
  split; [ exact H | ].
  destruct (@credentials_are_loaded_from_the_control_plane (Demo.world 0)
              "v0.1.0" Demo.commandLine _ _ _ H)
    as (_ & _ & _ & Hdefault & _).
  apply Hdefault. reflexivity.
Defined.

Lemma updater_is_built_on_the_loaded_credentials_witness :
  In (@EvNewCustomRoutes (Demo.world 0) (WithName log "updater")
        "eu-west-1" "shoot--foo--bar" ["100.96.0.0/11"])
     (events (fst (@run (Demo.world 0) "v0.1.0" Demo.commandLine))) /\
  loggerNames (WithName log "updater") = [componentName; "updater"].
Proof.
  assert (H : In (@EvNewCustomRoutes (Demo.world 0) (WithName log "updater")
                    "eu-west-1" "shoot--foo--bar" ["100.96.0.0/11"])
                 (events (fst (@run (Demo.world 0) "v0.1.0"
                                 Demo.commandLine))))
    by (cbn; tauto).
  split; [ exact H | ].
  destruct (@updater_is_built_on_the_loaded_credentials (Demo.world 0)
              "v0.1.0" Demo.commandLine _ _ _ _ H) as (Hnames & _).
  exact Hnames.
Defined.

Lemma updater_is_started_on_the_registered_reconciler_witness :
  In (@EvStartUpdater (Demo.world 0) log tt
        (Update ("shoot--foo--bar", ["100.96.0.0/11"]))
        5000000000%Z 3600000000000%Z 300000000000%Z)
     (events (fst (@run (Demo.world 0) "v0.1.0" Demo.commandLine))) /\
  exists mgr, log = @reconcilerOf (Demo.world 0) mgr.
Proof.
  assert (H : In (@EvStartUpdater (Demo.world 0) log tt
                    (Update ("shoot--foo--bar", ["100.96.0.0/11"]))
                    5000000000%Z 3600000000000%Z 300000000000%Z)
                 (events (fst (@run (Demo.world 0) "v0.1.0"
                                 Demo.commandLine))))
    by (cbn; tauto).
  split; [ exact H | ].
  destruct (@updater_is_started_on_the_registered_reconciler (Demo.world 0)
              "v0.1.0" Demo.commandLine _ _ _ _ _ _ H) as (mgr & Hr & _).
  exists mgr. exact Hr.
Defined.

(** The secret cannot be read: the record names the namespace and the
    secret. *)
Lemma error_records_carry_only_their_context_witness :
  In (@EvError (Demo.world 6) log "no secret"
        "could not load AWS credentials"
        [("namespace", "shoot--foo--bar"); ("secretName", "cloudprovider")])
     (events (fst (@run (Demo.world 6) "v0.1.0" Demo.commandLine))) /\
  [("namespace", "shoot--foo--bar"); ("secretName", "cloudprovider")] =
  recordContext (parseFlags (@defaults (Demo.world 6)) Demo.commandLine)
    "could not load AWS credentials".
Proof.
  assert (H : In (@EvError (Demo.world 6) log "no secret"
                    "could not load AWS credentials"
                    [("namespace", "shoot--foo--bar");
                     ("secretName", "cloudprovider")])
                 (events (fst (@run (Demo.world 6) "v0.1.0"
                                 Demo.commandLine))))
    by (cbn; tauto).
  split; [ exact H | ].
  exact (@error_records_carry_only_their_context (Demo.world 6) "v0.1.0"
           Demo.commandLine _ _ _ _ H).
Defined.


(** Two ranges, for IPv4 and IPv6. *)
Lemma joined_ranges_reach_the_parser_as_written_witness :
  In (@EvGetIPv4CIDR (Demo.world 0) ["100.96.0.0/11"; "fd00:10::/56"])
     (events (fst (@run (Demo.world 0) "v0.1.0" Cases.dualStack))) /\
  ["100.96.0.0/11"; "fd00:10::/56"] <> [] /\
  Forall (fun piece => Contains piece comma = false)
    ["100.96.0.0/11"; "fd00:10::/56"] /\
  podNetworkCidr (parseFlags (@defaults (Demo.world 0)) Cases.dualStack) =
    String.concat "," ["100.96.0.0/11"; "fd00:10::/56"] /\
  ["100.96.0.0/11"; "fd00:10::/56"] = ["100.96.0.0/11"; "fd00:10::/56"].
Proof.
  assert (H : In (@EvGetIPv4CIDR (Demo.world 0)
                    ["100.96.0.0/11"; "fd00:10::/56"])
                 (events (fst (@run (Demo.world 0) "v0.1.0"
                                 Cases.dualStack))))
    by (cbn; tauto).
  assert (Hnil : ["100.96.0.0/11"; "fd00:10::/56"] <> (@nil string))
    by discriminate.
  assert (Hpieces : Forall (fun piece => Contains piece comma = false)
                      ["100.96.0.0/11"; "fd00:10::/56"])
    by (repeat constructor).
  assert (Hvalue :
    podNetworkCidr (parseFlags (@defaults (Demo.world 0)) Cases.dualStack) =
    String.concat "," ["100.96.0.0/11"; "fd00:10::/56"]) by reflexivity.
  split; [ exact H | ].
  split; [ exact Hnil | ].
  split; [ exact Hpieces | ].
  split; [ exact Hvalue | ].
  exact (@joined_ranges_reach_the_parser_as_written (Demo.world 0) "v0.1.0"
           Cases.dualStack _ _ H Hnil Hpieces Hvalue).
Defined.

(** The default ports differ, so do the addresses. *)
Lemma probe_and_metrics_addresses_witness :
  HealthProbeBindAddress (managerOptions (@defaults (Demo.world 0))) <>
  BindAddress (Metrics (managerOptions (@defaults (Demo.world 0)))).
Proof.
  intro H.
  apply (proj1 (probe_and_metrics_addresses_clash_only_on_equal_ports
                  (@defaults (Demo.world 0)))) in H.
  discriminate H.
Defined.
